(** * openssl-tools: the OpenSSL installation probe and the build-cache fixture

    A shallow embedding of

    - [tests/fixtures/test-cache/src/math_utils.c] and its caller
      [tests/fixtures/test-cache/src/main.c]  (module [MathUtils]),
    - [tests/e2e/test_package/test_openssl.c]   (module [TestOpenssl]),

    and the properties of the capability probe that the design document
    states about them. *)

From Stdlib Require Import ZArith List String Ascii Bool Lia.
From Stdlib Require Import DecimalString.
From Equations Require Import Equations.
Import ListNotations.

Local Open Scope Z_scope.

(* ===================================================================== *)
(** * Part I. Definitions                                                 *)
(* ===================================================================== *)

(** ** Machine integers

    A C [int] is a 32-bit two's complement number.  It is carried as a [Z]
    and every arithmetic result is brought back into range by [wrap]. *)

Module Int32.

Definition modulus : Z := 2 ^ 32.
Definition INT_MIN : Z := - 2 ^ 31.
Definition INT_MAX : Z := 2 ^ 31 - 1.

Definition in_range (z : Z) : Prop := INT_MIN <= z <= INT_MAX.

Definition wrap (z : Z) : Z := (z + 2 ^ 31) mod modulus - 2 ^ 31.

End Int32.

(** ** tests/fixtures/test-cache/src/math_utils.c *)

Module MathUtils.
Import Int32.

(** [int add(int a, int b) { return a + b; }] *)
Definition add (a b : Z) : Z := wrap (a + b).

(** [int multiply(int a, int b) { return a * b; }] *)
Definition multiply (a b : Z) : Z := wrap (a * b).

Opaque wrap.

(** [int fibonacci(int n)]: the recursion of the source, on the value of
    [n].  The calls are on [n - 1] and [n - 2], computed as [int]s. *)
Equations? fibonacci (n : Z) : Z by wf (Z.to_nat n) lt :=
  fibonacci n with Z_le_gt_dec n 1 => {
    | left _ := n;
    | right _ := wrap (fibonacci (wrap (n - 1)) + fibonacci (wrap (n - 2))) }.
Proof.
  - assert (wrap (n - 1) < n); [| lia].
    with_strategy transparent [wrap] unfold wrap. unfold modulus.
    pose proof (Z.mod_pos_bound (n - 1 + 2 ^ 31) (2 ^ 32) ltac:(lia)).
    destruct (Z_lt_ge_dec (n - 1) (2 ^ 31)).
    + rewrite Z.mod_small; lia.
    + lia.
  - assert (wrap (n - 2) < n); [| lia].
    with_strategy transparent [wrap] unfold wrap. unfold modulus.
    pose proof (Z.mod_pos_bound (n - 2 + 2 ^ 31) (2 ^ 32) ltac:(lia)).
    destruct (Z_lt_ge_dec (n - 2) (2 ^ 31)).
    + rewrite Z.mod_small; lia.
    + lia.
Qed.

Transparent wrap.

(** The standard Fibonacci sequence F(0) = 0, F(1) = 1,
    F(k+2) = F(k+1) + F(k), over the unbounded integers. *)
Fixpoint Fib_pair (k : nat) : Z * Z :=
  match k with
  | O => (0, 1)
  | S k' => let '(a, b) := Fib_pair k' in (b, a + b)
  end.

Definition Fib (k : nat) : Z := fst (Fib_pair k).

End MathUtils.

(** ** tests/fixtures/test-cache/src/main.c

    The part of [main] that exercises [math_utils.c]: the values handed to
    the three [printf] calls.  (The time stamp printed afterwards is not
    modelled.) *)

Module CacheTest.
Import MathUtils.

Definition a : Z := 10.
Definition b : Z := 20.

Definition arithmetic_lines : list (Z * Z * Z) :=
  [ (a, b, add a b); (a, b, multiply a b) ].

(** [for (int i = 0; i < 10; i++) printf("fib(%d) = %d\n", i, fibonacci(i));] *)
Definition fibonacci_lines : list (Z * Z) :=
  map (fun i => (i, fibonacci i)) [0; 1; 2; 3; 4; 5; 6; 7; 8; 9].

End CacheTest.


(** ** tests/e2e/test_package/test_openssl.c *)

Module TestOpenssl.
Import Int32.
Local Open Scope string_scope.
Local Open Scope list_scope.
Local Open Scope Z_scope.

(** *** The provider (libssl / libcrypto)

    The probe only looks at what the library hands back.  A [Provider]
    fixes the answer of every library call the program makes; a failed
    allocation or lookup is the null pointer, [None]. *)

Definition Handle := positive.

Inductive VersionType :=
| OPENSSL_VERSION
| OPENSSL_VERSION_STRING
| OPENSSL_VERSION_BUILD_DATE
| OPENSSL_VERSION_COMPILER
| OPENSSL_VERSION_PLATFORM
| OPENSSL_VERSION_DIR.

Record EVP_MD := { EVP_MD_size : Z; EVP_MD_block_size : Z }.
Record EVP_CIPHER := { EVP_CIPHER_nid : Z }.
Record SSL_METHOD := { version : string }.

Record Provider := {
  OpenSSL_version : VersionType -> string;
  SSL_library_init : Z;
  SSL_load_error_strings : Z;
  OpenSSL_add_all_algorithms : Z;
  EVP_sha256 : option EVP_MD;
  (** return value and the bytes left in the caller's buffer *)
  RAND_bytes : Z -> Z * list Z;
  (** [EVP_MD_CTX_new] is called twice; the argument is the ordinal of
      the call within the run *)
  EVP_MD_CTX_new : nat -> option Handle;
  BIO_new : option Handle;
  BIO_write : Handle -> string -> Z -> Z;
  SSL_CTX_new : option Handle;
  SSL_CTX_get_ssl_method : Handle -> SSL_METHOD;
  EVP_get_digestbyname : string -> option EVP_MD;
  EVP_get_cipherbyname : string -> option EVP_CIPHER;
  FIPS_mode : Z
}.

(** *** What a run does: library calls and console output *)

Inductive Call :=
| Call_OpenSSL_version (t : VersionType)
| Call_SSL_library_init
| Call_SSL_load_error_strings
| Call_OpenSSL_add_all_algorithms
| Call_EVP_sha256
| Call_EVP_MD_size
| Call_EVP_MD_block_size
| Call_RAND_bytes (num : Z)
| Call_ERR_load_crypto_strings
| Call_ERR_load_SSL_strings
| Call_EVP_MD_CTX_new (r : option Handle)
| Call_EVP_MD_CTX_free (h : Handle)
| Call_BIO_s_mem
| Call_BIO_new (r : option Handle)
| Call_BIO_write (h : Handle) (len : Z)
| Call_BIO_free (h : Handle)
| Call_TLS_client_method
| Call_SSL_CTX_new (r : option Handle)
| Call_SSL_CTX_get_ssl_method (h : Handle)
| Call_SSL_CTX_free (h : Handle)
| Call_EVP_get_digestbyname (name : string)
| Call_EVP_get_cipherbyname (name : string)
| Call_FIPS_mode
| Call_EVP_cleanup
| Call_ERR_free_strings.

(** An argument of [printf], tagged with the conversion that consumes it. *)
Inductive Arg :=
| AInt (z : Z)        (* %d *)
| ASize (z : Z)       (* %zu *)
| AStr (s : string)   (* %s *)
| AHex (b : Z).       (* %02x *)

Inductive Event :=
| Invoke (c : Call)
| Printf (fmt : string) (args : list Arg).

(** *** Straight-line code with early [return]

    A computation yields the events it performed and either a value to
    go on with ([Next]) or the status [main] returned ([Return]). *)

Inductive Outcome (A : Type) :=
| Next (a : A)
| Return (code : Z).
Arguments Next {A} a.
Arguments Return {A} code.

Definition M (A : Type) : Type := (list Event * Outcome A)%type.

Definition ret {A} (a : A) : M A := ([], Next a).

Definition bind {A B} (m : M A) (f : A -> M B) : M B :=
  match m with
  | (t, Next a) => let '(t', o) := f a in (t ++ t', o)
  | (t, Return c) => (t, Return c)
  end.

Definition return_ {A} (code : Z) : M A := ([], Return code).

Definition invoke {A} (c : Call) (r : A) : M A := ([Invoke c], Next r).

Definition printf (fmt : string) (args : list Arg) : M unit :=
  ([Printf fmt args], Next tt).

Declare Scope probe_scope.
Delimit Scope probe_scope with probe.
Notation "x <- m ;; k" := (bind m (fun x => k))
  (at level 61, m at next level, right associativity) : probe_scope.
Notation "m ;; k" := (bind m (fun _ => k))
  (at level 61, right associativity) : probe_scope.
Local Open Scope probe_scope.

(** A [for] loop over the index values [l], threading the variables the
    body updates. *)
Fixpoint for_each {I S} (l : list I) (body : I -> S -> M S) (s : S) : M S :=
  match l with
  | [] => ret s
  | i :: l' => s' <- body i s ;; for_each l' body s'
  end.

Definition trace {A} (m : M A) : list Event := fst m.

(** The exit status of the process; falling off the end of [main] is 0. *)
Definition exit_code {A} (m : M A) : Z :=
  match snd m with
  | Return c => c
  | Next _ => 0
  end.

Definition is_some {A} (o : option A) : bool :=
  match o with Some _ => true | None => false end.

Definition strlen (s : string) : Z := Z.of_nat (String.length s).

(** *** The program

    [main] is one function; it is cut here at its [// Test N:] comments
    into [test_1] ... [test_11].  No local variable is shared between two
    of these blocks.  The text of every format string is that of the
    source, escapes included. *)

Section Program.
Variable p : Provider.
(** The macro [OPENSSL_CONF]; no header of the repository defines it. *)
Variable OPENSSL_CONF : option string.

Definition test_1 : M unit :=
  v <- invoke (Call_OpenSSL_version OPENSSL_VERSION)
              (OpenSSL_version p OPENSSL_VERSION) ;;
  printf "1. OpenSSL Version: %s\n" [AStr v] ;;
  v <- invoke (Call_OpenSSL_version OPENSSL_VERSION_STRING)
              (OpenSSL_version p OPENSSL_VERSION_STRING) ;;
  printf "   OpenSSL Version String: %s\n" [AStr v] ;;
  v <- invoke (Call_OpenSSL_version OPENSSL_VERSION_BUILD_DATE)
              (OpenSSL_version p OPENSSL_VERSION_BUILD_DATE) ;;
  printf "   OpenSSL Build Date: %s\n" [AStr v] ;;
  v <- invoke (Call_OpenSSL_version OPENSSL_VERSION_COMPILER)
              (OpenSSL_version p OPENSSL_VERSION_COMPILER) ;;
  printf "   OpenSSL Compiler: %s\n" [AStr v] ;;
  v <- invoke (Call_OpenSSL_version OPENSSL_VERSION_PLATFORM)
              (OpenSSL_version p OPENSSL_VERSION_PLATFORM) ;;
  printf "   OpenSSL Platform: %s\n" [AStr v] ;;
  v <- invoke (Call_OpenSSL_version OPENSSL_VERSION_DIR)
              (OpenSSL_version p OPENSSL_VERSION_DIR) ;;
  printf "   OpenSSL Directory: %s\n" [AStr v] ;;
  printf "   ✓ Version information retrieved\n\n" [].

Definition test_2 : M unit :=
  printf "2. SSL Library Initialization:\n" [] ;;
  r <- invoke Call_SSL_library_init (SSL_library_init p) ;;
  (if r =? 1 then
     printf "   ✓ SSL_library_init() successful\n" []
   else
     printf "   ✗ SSL_library_init() failed\n" [] ;;
     return_ 1) ;;
  r <- invoke Call_SSL_load_error_strings (SSL_load_error_strings p) ;;
  (if r =? 1 then
     printf "   ✓ SSL_load_error_strings() successful\n" []
   else
     printf "   ✗ SSL_load_error_strings() failed\n" [] ;;
     return_ 1) ;;
  r <- invoke Call_OpenSSL_add_all_algorithms (OpenSSL_add_all_algorithms p) ;;
  (if r =? 1 then
     printf "   ✓ OpenSSL_add_all_algorithms() successful\n" []
   else
     printf "   ✗ OpenSSL_add_all_algorithms() failed\n" [] ;;
     return_ 1) ;;
  printf "\n" [].

Definition test_3 : M unit :=
  printf "3. EVP Operations Test:\n" [] ;;
  md <- invoke Call_EVP_sha256 (EVP_sha256 p) ;;
  match md with
  | Some md =>
      printf "   ✓ EVP_sha256() successful\n" [] ;;
      n <- invoke Call_EVP_MD_size (EVP_MD_size md) ;;
      printf "   ✓ SHA-256 digest size: %d bytes\n" [AInt n] ;;
      n <- invoke Call_EVP_MD_block_size (EVP_MD_block_size md) ;;
      printf "   ✓ SHA-256 block size: %d bytes\n" [AInt n]
  | None =>
      printf "   ✗ EVP_sha256() failed\n" [] ;;
      return_ 1
  end ;;
  printf "\n" [].

(** [sizeof(random_bytes)] for [unsigned char random_bytes[32]] *)
Definition sizeof_random_bytes : Z := 32.

Definition test_4 : M unit :=
  printf "4. Random Number Generation Test:\n" [] ;;
  r <- invoke (Call_RAND_bytes sizeof_random_bytes)
              (RAND_bytes p sizeof_random_bytes) ;;
  let '(status, random_bytes) := r in
  (if status =? 1 then
     printf "   ✓ RAND_bytes() successful\n" [] ;;
     printf "   ✓ Generated %zu random bytes\n" [ASize sizeof_random_bytes] ;;
     printf "   ✓ Sample bytes: " [] ;;
     for_each (seq 0 8)
       (fun i _ => printf "%02x" [AHex (nth i random_bytes 0)]) tt ;;
     printf "...\n" []
   else
     printf "   ✗ RAND_bytes() failed\n" [] ;;
     return_ 1) ;;
  printf "\n" [].

Definition test_5 : M unit :=
  printf "5. Error Handling Test:\n" [] ;;
  invoke Call_ERR_load_crypto_strings tt ;;
  invoke Call_ERR_load_SSL_strings tt ;;
  ctx <- invoke (Call_EVP_MD_CTX_new (EVP_MD_CTX_new p 0%nat))
                (EVP_MD_CTX_new p 0%nat) ;;
  match ctx with
  | None =>
      printf "   ✓ Error handling working (EVP_MD_CTX_new failed as expected)\n" []
  | Some ctx =>
      invoke (Call_EVP_MD_CTX_free ctx) tt ;;
      printf "   ✓ EVP_MD_CTX operations successful\n" []
  end ;;
  printf "\n" [].

Definition test_6 : M unit :=
  printf "6. BIO Operations Test:\n" [] ;;
  invoke Call_BIO_s_mem tt ;;
  bio <- invoke (Call_BIO_new (BIO_new p)) (BIO_new p) ;;
  match bio with
  | Some bio =>
      printf "   ✓ BIO_new(BIO_s_mem()) successful\n" [] ;;
      let test_data := "Hello, OpenSSL!" in
      written <- invoke (Call_BIO_write bio (strlen test_data))
                        (BIO_write p bio test_data (strlen test_data)) ;;
      (if written >? 0 then
         printf "   ✓ BIO_write() successful (%d bytes)\n" [AInt written]
       else
         printf "   ✗ BIO_write() failed\n" [] ;;
         return_ 1) ;;
      invoke (Call_BIO_free bio) tt ;;
      printf "   ✓ BIO_free() successful\n" []
  | None =>
      printf "   ✗ BIO_new(BIO_s_mem()) failed\n" [] ;;
      return_ 1
  end ;;
  printf "\n" [].

Definition test_7 : M unit :=
  printf "7. SSL Context Test:\n" [] ;;
  invoke Call_TLS_client_method tt ;;
  ssl_ctx <- invoke (Call_SSL_CTX_new (SSL_CTX_new p)) (SSL_CTX_new p) ;;
  match ssl_ctx with
  | Some ssl_ctx =>
      printf "   ✓ SSL_CTX_new(TLS_client_method()) successful\n" [] ;;
      m <- invoke (Call_SSL_CTX_get_ssl_method ssl_ctx)
                  (SSL_CTX_get_ssl_method p ssl_ctx) ;;
      printf "   ✓ SSL context version: %s\n" [AStr (version m)] ;;
      invoke (Call_SSL_CTX_free ssl_ctx) tt ;;
      printf "   ✓ SSL_CTX_free() successful\n" []
  | None =>
      printf "   ✗ SSL_CTX_new(TLS_client_method()) failed\n" [] ;;
      return_ 1
  end ;;
  printf "\n" [].

Definition test_8 : M unit :=
  printf "8. Memory Management Test:\n" [] ;;
  md_ctx <- invoke (Call_EVP_MD_CTX_new (EVP_MD_CTX_new p 1%nat))
                   (EVP_MD_CTX_new p 1%nat) ;;
  match md_ctx with
  | Some md_ctx =>
      printf "   ✓ EVP_MD_CTX_new() successful\n" [] ;;
      invoke (Call_EVP_MD_CTX_free md_ctx) tt ;;
      printf "   ✓ EVP_MD_CTX_free() successful\n" []
  | None =>
      printf "   ✗ EVP_MD_CTX_new() failed\n" [] ;;
      return_ 1
  end ;;
  printf "\n" [].

Definition algorithms : list string :=
  [ "SHA256"; "SHA512"; "AES-256-CBC"; "AES-256-GCM";
    "RSA"; "ECDSA"; "ECDH"; "DH" ].

(** [sizeof(algorithms) / sizeof(algorithms[0])] *)
Definition algorithms_len : nat := List.length algorithms.

(** The body of the loop of test 9 at index [i].  The cipher table is
    consulted only when the digest lookup gave null ([||]). *)
Definition check_algorithm (i : nat) (available_count : Z) : M Z :=
  let name := nth i algorithms "" in
  d <- invoke (Call_EVP_get_digestbyname name) (EVP_get_digestbyname p name) ;;
  found <- (if is_some d then ret true
            else c <- invoke (Call_EVP_get_cipherbyname name)
                             (EVP_get_cipherbyname p name) ;;
                 ret (is_some c)) ;;
  if found : bool then
    printf "   ✓ %s available\n" [AStr name] ;;
    ret (wrap (available_count + 1))
  else
    printf "   - %s not available\n" [AStr name] ;;
    ret available_count.

Definition test_9 : M unit :=
  printf "9. Algorithm Availability Test:\n" [] ;;
  available_count <- for_each (seq 0 algorithms_len) check_algorithm 0 ;;
  printf "   ✓ %d/%zu algorithms available\n"
         [AInt available_count; ASize (Z.of_nat algorithms_len)] ;;
  printf "\n" [].

Definition test_10 : M unit :=
  printf "10. Configuration Test:\n" [] ;;
  let conf_file := OPENSSL_CONF in
  match conf_file with
  | Some conf_file => printf "   ✓ OPENSSL_CONF: %s\n" [AStr conf_file]
  | None => printf "   - OPENSSL_CONF not set\n" []
  end ;;
  r <- invoke Call_FIPS_mode (FIPS_mode p) ;;
  (if r =? 1 then printf "   ✓ FIPS mode enabled\n" []
   else printf "   - FIPS mode disabled\n" []) ;;
  printf "\n" [].

Definition test_11 : M unit :=
  printf "11. Cleanup:\n" [] ;;
  invoke Call_EVP_cleanup tt ;;
  invoke Call_ERR_free_strings tt ;;
  printf "   ✓ OpenSSL cleanup completed\n\n" [].

Definition main : M unit :=
  printf "OpenSSL Test Package - Validating OpenSSL Installation\n" [] ;;
  printf "======================================================\n\n" [] ;;
  test_1 ;;
  test_2 ;;
  test_3 ;;
  test_4 ;;
  test_5 ;;
  test_6 ;;
  test_7 ;;
  test_8 ;;
  test_9 ;;
  test_10 ;;
  test_11 ;;
  printf "======================================================\n" [] ;;
  printf "🎉 All OpenSSL tests passed successfully!\n" [] ;;
  printf "   OpenSSL is properly installed and functional.\n" [] ;;
  printf "======================================================\n" [] ;;
  return_ 0.

End Program.

(** *** Reading a run as a report

    The program reports on the console: a numbered header opens each
    block, and every line that carries a result starts with three blanks
    and a glyph.  The report of a run is the sequence of its glyph lines,
    each filed under the block whose header precedes it. *)

Inductive Status := Pass | Fail | Skipped.

Definition glyph (fmt : string) : option Status :=
  if String.prefix "   ✓ " fmt then Some Pass
  else if String.prefix "   ✗ " fmt then Some Fail
  else if String.prefix "   - " fmt then Some Skipped
  else None.

Definition is_digit (c : ascii) : bool :=
  (Nat.leb 48 (nat_of_ascii c) && Nat.leb (nat_of_ascii c) 57)%bool.

(** The number in front of the first full stop, if the text starts with
    digits followed by a full stop. *)
Fixpoint leading_number (s : string) (acc : option nat) : option nat :=
  match s with
  | String c s' =>
      if is_digit c then
        leading_number s'
          (Some (10 * match acc with Some n => n | None => 0 end
                 + (nat_of_ascii c - 48)))%nat
      else if Ascii.eqb c "." then acc
      else None
  | EmptyString => None
  end.

Definition section_number (fmt : string) : option nat :=
  leading_number fmt None.

Inductive Mark :=
| MSection (k : nat)
| MResult (s : Status).

Definition mark_of (e : Event) : option Mark :=
  match e with
  | Printf fmt _ =>
      match section_number fmt with
      | Some k => Some (MSection k)
      | None => option_map MResult (glyph fmt)
      end
  | Invoke _ => None
  end.

Fixpoint marks (t : list Event) : list Mark :=
  match t with
  | [] => []
  | e :: t' =>
      match mark_of e with
      | Some m => m :: marks t'
      | None => marks t'
      end
  end.

(** The categories of the design document, by block number. *)
Inductive Category :=
| Info | Init | Digest | Random | ErrorHandling | BufferIO
| ContextLifecycle | AlgorithmAvailability | Config | Cleanup
| Unnumbered.

Definition category_of_section (k : nat) : Category :=
  match k with
  | 1 => Info
  | 2 => Init
  | 3 => Digest
  | 4 => Random
  | 5 => ErrorHandling
  | 6 => BufferIO
  | 7 => ContextLifecycle
  | 8 => ContextLifecycle
  | 9 => AlgorithmAvailability
  | 10 => Config
  | 11 => Cleanup
  | _ => Unnumbered
  end%nat.

Record CheckResult := {
  section : nat;
  category : Category;
  status : Status;
  detail : Event
}.

Fixpoint report_from (cur : nat) (t : list Event) : list CheckResult :=
  match t with
  | [] => []
  | e :: t' =>
      match mark_of e with
      | Some (MSection k) => report_from k t'
      | Some (MResult s) =>
          {| section := cur; category := category_of_section cur;
             status := s; detail := e |} :: report_from cur t'
      | None => report_from cur t'
      end
  end.

Definition report (t : list Event) : list CheckResult := report_from 0%nat t.

(** Overall status: [Fail] if some result is [Fail], else [Pass]. *)
Definition is_fail (s : Status) : bool :=
  match s with Fail => true | _ => false end.

Definition overall (r : list CheckResult) : Status :=
  if existsb (fun c => is_fail (status c)) r then Fail else Pass.

(** The category/status sequence of a report. *)
Definition outline (r : list CheckResult) : list (Category * Status) :=
  map (fun c => (category c, status c)) r.

(** The blocks a run entered, in order. *)
Fixpoint sections (ms : list Mark) : list nat :=
  match ms with
  | [] => []
  | MSection k :: ms' => k :: sections ms'
  | MResult _ :: ms' => sections ms'
  end.

(** The library calls of a run, in order. *)
Fixpoint calls (t : list Event) : list Call :=
  match t with
  | [] => []
  | Invoke c :: t' => c :: calls t'
  | Printf _ _ :: t' => calls t'
  end.

Definition is_cleanup (c : Call) : bool :=
  match c with
  | Call_EVP_cleanup | Call_ERR_free_strings => true
  | _ => false
  end.

(** *** Provider-side resources *)

Inductive Resource :=
| RBio (h : Handle)
| RSslCtx (h : Handle)
| RMdCtx (h : Handle).

Definition Resource_eqb (a b : Resource) : bool :=
  match a, b with
  | RBio h, RBio h' => Pos.eqb h h'
  | RSslCtx h, RSslCtx h' => Pos.eqb h h'
  | RMdCtx h, RMdCtx h' => Pos.eqb h h'
  | _, _ => false
  end.

Definition acquires (c : Call) : option Resource :=
  match c with
  | Call_BIO_new (Some h) => Some (RBio h)
  | Call_SSL_CTX_new (Some h) => Some (RSslCtx h)
  | Call_EVP_MD_CTX_new (Some h) => Some (RMdCtx h)
  | _ => None
  end.

Definition releases (c : Call) : option Resource :=
  match c with
  | Call_BIO_free h => Some (RBio h)
  | Call_SSL_CTX_free h => Some (RSslCtx h)
  | Call_EVP_MD_CTX_free h => Some (RMdCtx h)
  | _ => None
  end.

Fixpoint release (r : Resource) (held : list Resource) : list Resource :=
  match held with
  | [] => []
  | r' :: held' => if Resource_eqb r r' then held' else r' :: release r held'
  end.

(** The resources still held after the calls [cs], starting from [held]. *)
Fixpoint live_from (held : list Resource) (cs : list Call) : list Resource :=
  match cs with
  | [] => held
  | c :: cs' =>
      match acquires c, releases c with
      | Some r, _ => live_from (r :: held) cs'
      | None, Some r => live_from (release r held) cs'
      | None, None => live_from held cs'
      end
  end.

Definition live (t : list Event) : list Resource := live_from [] (calls t).

(** *** Success and failure indicators of the provider *)

Definition available (p : Provider) (name : string) : bool :=
  (is_some (EVP_get_digestbyname p name)
   || is_some (EVP_get_cipherbyname p name))%bool.

(** Two providers answer with the same success/failure indicators; the
    values that come with a success may differ. *)
Definition same_indicators (p q : Provider) : Prop :=
  (SSL_library_init p =? 1) = (SSL_library_init q =? 1) /\
  (SSL_load_error_strings p =? 1) = (SSL_load_error_strings q =? 1) /\
  (OpenSSL_add_all_algorithms p =? 1) = (OpenSSL_add_all_algorithms q =? 1) /\
  is_some (EVP_sha256 p) = is_some (EVP_sha256 q) /\
  (fst (RAND_bytes p sizeof_random_bytes) =? 1)
    = (fst (RAND_bytes q sizeof_random_bytes) =? 1) /\
  (forall k, is_some (EVP_MD_CTX_new p k) = is_some (EVP_MD_CTX_new q k)) /\
  is_some (BIO_new p) = is_some (BIO_new q) /\
  (forall h h' s n,
      BIO_new p = Some h -> BIO_new q = Some h' ->
      (BIO_write p h s n >? 0) = (BIO_write q h' s n >? 0)) /\
  is_some (SSL_CTX_new p) = is_some (SSL_CTX_new q) /\
  (forall name, In name algorithms -> available p name = available q name) /\
  (FIPS_mode p =? 1) = (FIPS_mode q =? 1).

(** *** The text [printf] writes *)

Definition decimal (z : Z) : string := NilZero.string_of_int (Z.to_int z).

Definition hex_digit (n : Z) : ascii :=
  ascii_of_nat (Z.to_nat (if n <? 10 then 48 + n else 87 + n)).

Definition hex02 (b : Z) : string :=
  String (hex_digit ((b mod 256) / 16))
    (String (hex_digit ((b mod 256) mod 16)) EmptyString).

Definition newline : ascii := ascii_of_nat 10.

(** The conversions and escapes the program uses: [%d], [%zu], [%s],
    [%02x] and [\n].  A conversion without a fitting argument is left
    as it stands. *)
Fixpoint render (fmt : string) (args : list Arg) : string :=
  match fmt with
  | String "\" (String "n" rest) => String newline (render rest args)
  | String "%" (String "d" rest) =>
      match args with
      | AInt z :: args' => String.append (decimal z) (render rest args')
      | _ => String "%" (String "d" (render rest args))
      end
  | String "%" (String "s" rest) =>
      match args with
      | AStr s :: args' => String.append s (render rest args')
      | _ => String "%" (String "s" (render rest args))
      end
  | String "%" (String "z" (String "u" rest)) =>
      match args with
      | ASize z :: args' => String.append (decimal z) (render rest args')
      | _ => String "%" (String "z" (String "u" (render rest args)))
      end
  | String "%" (String "0" (String "2" (String "x" rest))) =>
      match args with
      | AHex b :: args' => String.append (hex02 b) (render rest args')
      | _ => String "%" (String "0" (String "2" (String "x" (render rest args))))
      end
  | String c rest => String c (render rest args)
  | EmptyString => EmptyString
  end.

(** Everything a run wrote to the console. *)
Fixpoint console (t : list Event) : string :=
  match t with
  | [] => EmptyString
  | Printf fmt args :: t' => String.append (render fmt args) (console t')
  | Invoke _ :: t' => console t'
  end.

(** *** Decidable properties of a run *)

Definition is_fail_mark (m : Mark) : bool :=
  match m with MResult Fail => true | _ => false end.

(** No result is [Fail]. *)
Definition nofail (ms : list Mark) : bool :=
  forallb (fun m => negb (is_fail_mark m)) ms.

(** The last thing the run did was to print a [Fail] line, its first. *)
Definition stops_on_fail (t : list Event) : bool :=
  match rev t with
  | e :: before =>
      match mark_of e with
      | Some (MResult Fail) => nofail (marks (rev before))
      | _ => false
      end
  | [] => false
  end.

Definition no_cleanup (cs : list Call) : bool :=
  forallb (fun c => negb (is_cleanup c)) cs.

(** The blocks that contain a [return 1]. *)
Definition fallible (k : nat) : bool :=
  existsb (Nat.eqb k) [2; 3; 4; 6; 7; 8]%nat.

(** The block under which the next result line is filed. *)
Definition cur_section (k : nat) (ms : list Mark) : nat :=
  last (sections ms) k.

(** The statuses of the result lines. *)
Fixpoint statuses (ms : list Mark) : list Status :=
  match ms with
  | [] => []
  | MResult s :: ms' => s :: statuses ms'
  | MSection _ :: ms' => statuses ms'
  end.

(** *** The loop of test 9, iteration by iteration *)

(** The lookups made for [name]. *)
Definition lookup_calls (p : Provider) (name : string) : list Event :=
  Invoke (Call_EVP_get_digestbyname name)
  :: (if is_some (EVP_get_digestbyname p name) then []
      else [Invoke (Call_EVP_get_cipherbyname name)]).

(** The line printed for [name]. *)
Definition availability_line (p : Provider) (name : string) : Event :=
  Printf (if available p name then "   ✓ %s available\n"
          else "   - %s not available\n") [AStr name].

Definition algorithm_events (p : Provider) (i : nat) : list Event :=
  lookup_calls p (nth i algorithms "")
  ++ [availability_line p (nth i algorithms "")].

(** [available_count] after the iterations [l], starting from [c]. *)
Definition count_after (p : Provider) (l : list nat) (c : Z) : Z :=
  fold_left
    (fun c i => if available p (nth i algorithms "") then wrap (c + 1) else c)
    l c.

(** The number of names for which a lookup succeeds. *)
Definition available_names (p : Provider) : list string :=
  filter (available p) algorithms.

(** A stretch of a run that opens no block, reports no failure, does no
    clean-up and leaves the held resources as they were. *)
Definition quiet (t : list Event) : Prop :=
  sections (marks t) = [] /\
  nofail (marks t) = true /\
  no_cleanup (calls t) = true /\
  forall held, live_from held (calls t) = held.

(** *** What a whole run looks like *)

(** Either every held resource has been given back, or the BIO of test 6
    is still held because [BIO_write] failed. *)
Definition leak_spec (p : Provider) (cs : list Call) : Prop :=
  (forall held, live_from held cs = held) \/
  (exists h,
      BIO_new p = Some h /\
      (BIO_write p h "Hello, OpenSSL!" (strlen "Hello, OpenSSL!") >? 0) = false /\
      forall held, live_from held cs = RBio h :: held).

(** What holds of block [k]: it announces itself and no other block; it
    either runs to its end without a [Fail], or returns 1 right after
    printing its first [Fail] line, and only the blocks with a [return 1]
    do so; it makes no clean-up call; and it gives back what it acquired,
    up to [leak_spec] when it returns. *)
Record block_ok (p : Provider) (k : nat) (b : M unit) : Prop := {
  bo_sections : sections (marks (trace b)) = [k];
  bo_verdict :
    match snd b with
    | Next _ => nofail (marks (trace b)) = true
    | Return c => c = 1 /\ stops_on_fail (trace b) = true
                  /\ fallible k = true
    end;
  bo_cleanup : no_cleanup (calls (trace b)) = true;
  bo_live :
    match snd b with
    | Next _ => forall held, live_from held (calls (trace b)) = held
    | Return _ => leak_spec p (calls (trace b))
    end
}.

(** A run through the blocks [ks] up to the end of [main]: it returns 0
    after all of them, or 1 from inside one of them. *)
Definition run_ok (p : Provider) (ks : list nat) (r : M unit) : Prop :=
  match snd r with
  | Return c =>
      (c = 0 /\
       nofail (marks (trace r)) = true /\
       sections (marks (trace r)) = ks /\
       (exists cs, calls (trace r) = cs ++ [Call_EVP_cleanup; Call_ERR_free_strings]
                   /\ no_cleanup cs = true) /\
       (forall held, live_from held (calls (trace r)) = held))
      \/
      (c = 1 /\
       stops_on_fail (trace r) = true /\
       (exists n, (n < List.length ks)%nat /\
                  sections (marks (trace r)) = firstn (S n) ks /\
                  fallible (nth n ks 0%nat) = true) /\
       no_cleanup (calls (trace r)) = true /\
       leak_spec p (calls (trace r)))
  | Next _ => False
  end.

(** *** The answers [main] insists on

    The conditions whose failure leads to a [return 1], in the order in
    which [main] meets them. *)

Definition bio_ok (p : Provider) : bool :=
  match BIO_new p with
  | Some bio => BIO_write p bio "Hello, OpenSSL!" (strlen "Hello, OpenSSL!") >? 0
  | None => false
  end.

Definition required_ok (p : Provider) : bool :=
  ((SSL_library_init p =? 1)
   && (SSL_load_error_strings p =? 1)
   && (OpenSSL_add_all_algorithms p =? 1)
   && is_some (EVP_sha256 p)
   && (fst (RAND_bytes p sizeof_random_bytes) =? 1)
   && bio_ok p
   && is_some (SSL_CTX_new p)
   && is_some (EVP_MD_CTX_new p 1))%bool.

(** *** Comparing two runs *)

Definition outcome_code {A} (o : Outcome A) : option Z :=
  match o with
  | Next _ => None
  | Return c => Some c
  end.

(** Two computations agree on the observation [obs] of their events and
    on how they end. *)
Definition sim {X} (obs : list Event -> list X) (m1 m2 : M unit) : Prop :=
  obs (trace m1) = obs (trace m2) /\
  outcome_code (snd m1) = outcome_code (snd m2).

(** The block and the status of every result, read off the marks of a
    run. *)
Fixpoint filed (cur : nat) (ms : list Mark) : list (nat * Status) :=
  match ms with
  | [] => []
  | MSection k :: ms' => filed k ms'
  | MResult s :: ms' => (cur, s) :: filed cur ms'
  end.

(** The blocks entered, read off the events. *)
Definition blocks_of (t : list Event) : list nat := sections (marks t).

(** The bytes shown on the sample line of test 4. *)
Fixpoint sample_bytes (t : list Event) : list Z :=
  match t with
  | [] => []
  | Printf _ [AHex b] :: t' => b :: sample_bytes t'
  | _ :: t' => sample_bytes t'
  end.

End TestOpenssl.

(** ** The cost of [fibonacci]

    The recursion of [math_utils.c] once more, returning beside the value
    the number of times [fibonacci] is entered on the way. *)

Module MathUtilsCost.
Import Int32.

Opaque wrap.

Equations? fibonacci_counted (n : Z) : Z * Z by wf (Z.to_nat n) lt :=
  fibonacci_counted n with Z_le_gt_dec n 1 => {
    | left _ := (n, 1);
    | right _ :=
        (wrap (fst (fibonacci_counted (wrap (n - 1)))
               + fst (fibonacci_counted (wrap (n - 2)))),
         1 + snd (fibonacci_counted (wrap (n - 1)))
           + snd (fibonacci_counted (wrap (n - 2)))) }.
Proof.
  all: match goal with
       | |- (Z.to_nat (wrap (?m - ?d)) < _)%nat =>
           assert (wrap (m - d) < m); [| lia];
           with_strategy transparent [wrap] unfold wrap; unfold modulus;
           pose proof (Z.mod_pos_bound (m - d + 2 ^ 31) (2 ^ 32) ltac:(lia));
           destruct (Z_lt_ge_dec (m - d) (2 ^ 31));
           [rewrite Z.mod_small; lia | lia]
       end.
Qed.

Transparent wrap.

End MathUtilsCost.

(** ** [main] of the probe as a list of blocks *)

Module Runs.
Import Int32 TestOpenssl.
Local Open Scope string_scope.
Local Open Scope list_scope.
Local Open Scope Z_scope.
Local Open Scope probe_scope.

(** What [main] prints before test 1. *)
Definition opening : list Event :=
  [ Printf "OpenSSL Test Package - Validating OpenSSL Installation\n" [];
    Printf "======================================================\n\n" [] ].

(** The eleven blocks, in the order of the source. *)
Definition blocks (p : Provider) (conf : option string) : list (M unit) :=
  [ test_1 p; test_2 p; test_3 p; test_4 p; test_5 p; test_6 p;
    test_7 p; test_8 p; test_9 p; test_10 p conf; test_11 ].

(** What follows test 11. *)
Definition closing : M unit :=
  printf "======================================================\n" [] ;;
  printf "🎉 All OpenSSL tests passed successfully!\n" [] ;;
  printf "   OpenSSL is properly installed and functional.\n" [] ;;
  printf "======================================================\n" [] ;;
  return_ 0.

(** Blocks in sequence, then [k]. *)
Definition seq_blocks (bs : list (M unit)) (k : M unit) : M unit :=
  fold_right (fun b r => b ;; r) k bs.

(** The block runs to its end. *)
Definition runs_on {A} (m : M A) : bool :=
  match snd m with
  | Next _ => true
  | Return _ => false
  end.

(** The blocks that are entered: up to the first that returns, included. *)
Fixpoint ran (bs : list (M unit)) : list (M unit) :=
  match bs with
  | [] => []
  | b :: bs' => if runs_on b then b :: ran bs' else [b]
  end.

Definition completed (bs : list (M unit)) : bool := forallb runs_on bs.

(** The number of the block in which the run ends, from the answers of
    the provider: the block of the first required answer that is not a
    success, or 11. *)
Definition stop_block (p : Provider) : nat :=
  if negb ((SSL_library_init p =? 1)
           && (SSL_load_error_strings p =? 1)
           && (OpenSSL_add_all_algorithms p =? 1)) then 2
  else if negb (is_some (EVP_sha256 p)) then 3
  else if negb (fst (RAND_bytes p sizeof_random_bytes) =? 1) then 4
  else if negb (bio_ok p) then 6
  else if negb (is_some (SSL_CTX_new p)) then 7
  else if negb (is_some (EVP_MD_CTX_new p 1)) then 8
  else 11.

(** *** Use of handles *)

(** The resource a call works on without acquiring or releasing it. *)
Definition uses (c : Call) : option Resource :=
  match c with
  | Call_BIO_write h _ => Some (RBio h)
  | Call_SSL_CTX_get_ssl_method h => Some (RSslCtx h)
  | _ => None
  end.

Definition holds (r : Resource) (held : list Resource) : bool :=
  existsb (Resource_eqb r) held.

(** Starting with [held], the calls [cs] acquire a resource only while
    none is held, and use or release only a resource that is held. *)
Fixpoint disciplined_from (held : list Resource) (cs : list Call) : bool :=
  match cs with
  | [] => true
  | c :: cs' =>
      match acquires c with
      | Some r =>
          match held with
          | [] => disciplined_from [r] cs'
          | _ :: _ => false
          end
      | None =>
          match releases c with
          | Some r => holds r held && disciplined_from (release r held) cs'
          | None =>
              match uses c with
              | Some r => holds r held
              | None => true
              end && disciplined_from held cs'
          end
      end
  end.

(** *** Lines and calls of interest *)

Definition success_banner : Event :=
  Printf "🎉 All OpenSSL tests passed successfully!\n" [].

Definition is_success_banner (e : Event) : bool :=
  match e with
  | Printf fmt [] => String.eqb fmt "🎉 All OpenSSL tests passed successfully!\n"
  | _ => false
  end.

Definition banners (t : list Event) : list Event := filter is_success_banner t.

(** The version queries and the three initialisation calls. *)
Definition before_init (c : Call) : bool :=
  match c with
  | Call_OpenSSL_version _
  | Call_SSL_library_init
  | Call_SSL_load_error_strings
  | Call_OpenSSL_add_all_algorithms => true
  | _ => false
  end.

Definition initialised (p : Provider) : bool :=
  (SSL_library_init p =? 1)
  && (SSL_load_error_strings p =? 1)
  && (OpenSSL_add_all_algorithms p =? 1).

(** The lookups test 9 makes for [name]. *)
Definition lookups (p : Provider) (name : string) : list Call :=
  Call_EVP_get_digestbyname name
  :: (if is_some (EVP_get_digestbyname p name) then []
      else [Call_EVP_get_cipherbyname name]).

(** The first eight bytes of a buffer, as test 4 reads them. *)
Definition first8 (buf : list Z) : list Z :=
  map (fun i => nth i buf 0) (List.seq 0 8).

(** What test 6 leaves held, starting from [held]. *)
Definition held_after_test_6 (p : Provider) (held : list Resource) : list Resource :=
  match BIO_new p with
  | Some bio =>
      if BIO_write p bio "Hello, OpenSSL!" (strlen "Hello, OpenSSL!") >? 0
      then held
      else RBio bio :: held
  | None => held
  end.

(** *** Counting results *)

Definition Status_eqb (a b : Status) : bool :=
  match a, b with
  | Pass, Pass | Fail, Fail | Skipped, Skipped => true
  | _, _ => false
  end.

Definition count_status (s : Status) (r : list CheckResult) : nat :=
  List.length (filter (fun c => Status_eqb (status c) s) r).

Definition bool_to_nat (b : bool) : nat := if b then 1 else 0.

(** The statuses each block reports, from the answers of the provider. *)
Definition block_statuses (p : Provider) (conf : option string)
    : list (list Status) :=
  [ [Pass];
    if SSL_library_init p =? 1 then
      Pass :: (if SSL_load_error_strings p =? 1 then
                 Pass :: (if OpenSSL_add_all_algorithms p =? 1
                          then [Pass] else [Fail])
               else [Fail])
    else [Fail];
    if is_some (EVP_sha256 p) then [Pass; Pass; Pass] else [Fail];
    if fst (RAND_bytes p sizeof_random_bytes) =? 1
    then [Pass; Pass; Pass] else [Fail];
    [Pass];
    match BIO_new p with
    | Some bio =>
        Pass :: (if BIO_write p bio "Hello, OpenSSL!" (strlen "Hello, OpenSSL!") >? 0
                 then [Pass; Pass] else [Fail])
    | None => [Fail]
    end;
    if is_some (SSL_CTX_new p) then [Pass; Pass; Pass] else [Fail];
    if is_some (EVP_MD_CTX_new p 1) then [Pass; Pass] else [Fail];
    map (fun name => if available p name then Pass else Skipped) algorithms
    ++ [Pass];
    [ if is_some conf then Pass else Skipped;
      if FIPS_mode p =? 1 then Pass else Skipped ];
    [Pass] ].

(** *** A run through all eleven blocks *)

(** The results of a run that no check stops, each with the number of
    its block: 31 lines, of which only those of the eight algorithm
    names, of the configuration path and of FIPS mode depend on the
    provider. *)
Definition full_report (p : Provider) (conf : option string)
    : list (nat * Status) :=
  [ (1%nat, Pass);
    (2%nat, Pass); (2%nat, Pass); (2%nat, Pass);
    (3%nat, Pass); (3%nat, Pass); (3%nat, Pass);
    (4%nat, Pass); (4%nat, Pass); (4%nat, Pass);
    (5%nat, Pass);
    (6%nat, Pass); (6%nat, Pass); (6%nat, Pass);
    (7%nat, Pass); (7%nat, Pass); (7%nat, Pass);
    (8%nat, Pass); (8%nat, Pass) ]
  ++ map (fun name => (9%nat, if available p name then Pass else Skipped))
         algorithms
  ++ [ (9%nat, Pass);
       (10%nat, if is_some conf then Pass else Skipped);
       (10%nat, if FIPS_mode p =? 1 then Pass else Skipped);
       (11%nat, Pass) ].

(** The library calls of such a run, in order; [bio], [ssl_ctx] and
    [md_ctx] are the handles [BIO_new], [SSL_CTX_new] and the second
    [EVP_MD_CTX_new] returned. *)
Definition full_calls (p : Provider) (bio ssl_ctx md_ctx : Handle) : list Call :=
  [ Call_OpenSSL_version OPENSSL_VERSION;
    Call_OpenSSL_version OPENSSL_VERSION_STRING;
    Call_OpenSSL_version OPENSSL_VERSION_BUILD_DATE;
    Call_OpenSSL_version OPENSSL_VERSION_COMPILER;
    Call_OpenSSL_version OPENSSL_VERSION_PLATFORM;
    Call_OpenSSL_version OPENSSL_VERSION_DIR;
    Call_SSL_library_init;
    Call_SSL_load_error_strings;
    Call_OpenSSL_add_all_algorithms;
    Call_EVP_sha256; Call_EVP_MD_size; Call_EVP_MD_block_size;
    Call_RAND_bytes sizeof_random_bytes;
    Call_ERR_load_crypto_strings; Call_ERR_load_SSL_strings;
    Call_EVP_MD_CTX_new (EVP_MD_CTX_new p 0) ]
  ++ match EVP_MD_CTX_new p 0 with
     | Some ctx => [Call_EVP_MD_CTX_free ctx]
     | None => []
     end
  ++ [ Call_BIO_s_mem; Call_BIO_new (Some bio);
       Call_BIO_write bio (strlen "Hello, OpenSSL!"); Call_BIO_free bio;
       Call_TLS_client_method; Call_SSL_CTX_new (Some ssl_ctx);
       Call_SSL_CTX_get_ssl_method ssl_ctx; Call_SSL_CTX_free ssl_ctx;
       Call_EVP_MD_CTX_new (Some md_ctx); Call_EVP_MD_CTX_free md_ctx ]
  ++ flat_map (lookups p) algorithms
  ++ [ Call_FIPS_mode; Call_EVP_cleanup; Call_ERR_free_strings ].

End Runs.

(** ** Providers to run the probe against *)

Module Samples.
Import TestOpenssl.
Local Open Scope string_scope.
Local Open Scope list_scope.
Local Open Scope Z_scope.

Definition sha256_md : EVP_MD := {| EVP_MD_size := 32; EVP_MD_block_size := 64 |}.

Definition known (names : list string) (name : string) : bool :=
  existsb (String.eqb name) names.

(** A provider that answers as an installed library does, except where
    the arguments say otherwise: the status of [SSL_library_init], the
    result of [EVP_sha256], the bytes [RAND_bytes] delivers, the result of the first
    [EVP_MD_CTX_new], what [BIO_write] returns, and the names of the
    digests and ciphers it knows. *)
Definition provider (init : Z) (sha256 : option EVP_MD) (random : list Z)
    (ctx0 : option Handle) (written : Z) (digests ciphers : list string)
    : Provider :=
  {| OpenSSL_version := fun t =>
       match t with
       | OPENSSL_VERSION => "OpenSSL 1.1.1w  11 Sep 2023"
       | OPENSSL_VERSION_STRING => "1.1.1w"
       | OPENSSL_VERSION_BUILD_DATE => "built on: Mon Sep 11 2023"
       | OPENSSL_VERSION_COMPILER => "compiler: gcc"
       | OPENSSL_VERSION_PLATFORM => "platform: linux-x86_64"
       | OPENSSL_VERSION_DIR => "OPENSSLDIR: /usr/lib/ssl"
       end;
     SSL_library_init := init;
     SSL_load_error_strings := 1;
     OpenSSL_add_all_algorithms := 1;
     EVP_sha256 := sha256;
     RAND_bytes := fun _ => (1, random);
     EVP_MD_CTX_new := fun k => match k with O => ctx0 | _ => Some 23%positive end;
     BIO_new := Some 31%positive;
     BIO_write := fun _ _ _ => written;
     SSL_CTX_new := Some 41%positive;
     SSL_CTX_get_ssl_method := fun _ => {| version := "TLS" |};
     EVP_get_digestbyname := fun name =>
       if known digests name then Some sha256_md else None;
     EVP_get_cipherbyname := fun name =>
       if known ciphers name then Some {| EVP_CIPHER_nid := 427 |} else None;
     FIPS_mode := 0 |}.

Definition bytes_a : list Z :=
  [ 222; 173; 190; 239; 1; 2; 3; 4; 5; 6; 7; 8; 9; 10; 11; 12;
    13; 14; 15; 16; 17; 18; 19; 20; 21; 22; 23; 24; 25; 26; 27; 28 ].

Definition bytes_b : list Z :=
  [ 202; 254; 186; 190; 8; 7; 6; 5; 4; 3; 2; 1; 9; 10; 11; 12;
    13; 14; 15; 16; 17; 18; 19; 20; 21; 22; 23; 24; 25; 26; 27; 28 ].

Definition digests : list string := [ "SHA256"; "SHA512" ].
Definition ciphers : list string := [ "AES-256-CBC"; "AES-256-GCM" ].

(** An installed library: two digests and two ciphers of the eight
    names are known to it. *)
Definition functional : Provider :=
  provider 1 (Some sha256_md) bytes_a (Some 21%positive) 15 digests ciphers.

(** The same library on another run: other random bytes, other
    addresses. *)
Definition functional_again : Provider :=
  provider 1 (Some sha256_md) bytes_b (Some 22%positive) 15 digests ciphers.

(** Every one of the eight names is known as a digest or as a cipher. *)
Definition all_algorithms : Provider :=
  provider 1 (Some sha256_md) bytes_a (Some 21%positive) 15
    [ "SHA256"; "SHA512"; "RSA"; "ECDSA" ]
    [ "AES-256-CBC"; "AES-256-GCM"; "ECDH"; "DH" ].

(** [SSL_library_init] does not return 1. *)
Definition init_fails : Provider :=
  provider 0 (Some sha256_md) bytes_a (Some 21%positive) 15 digests ciphers.



(** The first [EVP_MD_CTX_new] returns null. *)
Definition no_md_ctx : Provider :=
  provider 1 (Some sha256_md) bytes_a None 15 digests ciphers.

(** [BIO_new] succeeds and [BIO_write] then returns 0. *)
Definition bio_write_fails : Provider :=
  provider 1 (Some sha256_md) bytes_a (Some 21%positive) 0 digests ciphers.

End Samples.

(* ===================================================================== *)
(** * Part II. Properties of the fixture arithmetic                       *)
(* ===================================================================== *)

Section MathUtilsFacts.
Import Int32 MathUtils.

Lemma wrap_in_range (z : Z) : in_range z -> wrap z = z.
Proof.
  unfold in_range, INT_MIN, INT_MAX, wrap, modulus. intros H.
  rewrite Z.mod_small; lia.
Qed.

Lemma wrap_range (z : Z) : in_range (wrap z).
Proof.
  unfold in_range, INT_MIN, INT_MAX, wrap, modulus.
  pose proof (Z.mod_pos_bound (z + 2 ^ 31) (2 ^ 32) ltac:(lia)). lia.
Qed.

Lemma wrap_congruent (z : Z) : wrap z mod modulus = z mod modulus.
Proof.
  unfold wrap, modulus.
  rewrite Zminus_mod_idemp_l.
  f_equal. lia.
Qed.

Lemma wrap_eq_of_congruent (x y : Z) :
  x mod modulus = y mod modulus -> wrap x = wrap y.
Proof.
  intros H. unfold wrap.
  rewrite <- (Zplus_mod_idemp_l x), <- (Zplus_mod_idemp_l y), H.
  reflexivity.
Qed.

Lemma wrap_add_wrap (x y : Z) : wrap (wrap x + wrap y) = wrap (x + y).
Proof.
  apply wrap_eq_of_congruent.
  rewrite Zplus_mod, !wrap_congruent, <- Zplus_mod. reflexivity.
Qed.

(** The recursion equation of [fibonacci], as the source has it. *)
Lemma fibonacci_unfold (n : Z) :
  fibonacci n =
    if n <=? 1 then n
    else wrap (fibonacci (wrap (n - 1)) + fibonacci (wrap (n - 2))).
Proof.
  rewrite fibonacci_equation_1.
  destruct (Z_le_gt_dec n 1) as [Hle | Hgt]; cbn.
  - destruct (Z.leb_spec n 1); [reflexivity | lia].
  - destruct (Z.leb_spec n 1); [lia | reflexivity].
Qed.

Lemma Fib_SS (k : nat) : Fib (S (S k)) = Fib (S k) + Fib k.
Proof.
  unfold Fib. cbn [Fib_pair].
  destruct (Fib_pair k) as [a b]. cbn. lia.
Qed.

Lemma Fib_pair_nonneg (k : nat) : 0 <= fst (Fib_pair k) <= snd (Fib_pair k).
Proof.
  induction k as [| k IH]; cbn [Fib_pair]; [cbn; lia |].
  destruct (Fib_pair k) as [a b]. cbn in *. lia.
Qed.

Lemma Fib_S_le (k : nat) : 0 <= Fib k <= Fib (S k).
Proof.
  unfold Fib. pose proof (Fib_pair_nonneg k) as H. cbn [Fib_pair].
  destruct (Fib_pair k) as [a b]. cbn in *. lia.
Qed.

Lemma Fib_mono (k m : nat) : (k <= m)%nat -> Fib k <= Fib m.
Proof.
  induction 1 as [| m _ IH]; [lia |].
  pose proof (Fib_S_le m). lia.
Qed.

(** On every non-negative [int], [fibonacci] is the Fibonacci number
    reduced to 32 bits. *)
Lemma fibonacci_wrap_Fib (k : nat) :
  Z.of_nat k <= INT_MAX -> fibonacci (Z.of_nat k) = wrap (Fib k).
Proof.
  induction k as [k IH] using (well_founded_induction lt_wf). intros Hk.
  rewrite fibonacci_unfold.
  destruct (Z.leb_spec (Z.of_nat k) 1) as [Hle | Hgt].
  - destruct k as [| [| k]]; try lia; cbn; reflexivity.
  - destruct k as [| [| k]]; try lia.
    unfold INT_MAX in Hk.
    rewrite (wrap_in_range (Z.of_nat (S (S k)) - 1)),
            (wrap_in_range (Z.of_nat (S (S k)) - 2))
      by (unfold in_range, INT_MIN, INT_MAX; lia).
    replace (Z.of_nat (S (S k)) - 1) with (Z.of_nat (S k)) by lia.
    replace (Z.of_nat (S (S k)) - 2) with (Z.of_nat k) by lia.
    rewrite (IH (S k)), (IH k) by (unfold INT_MAX; lia).
    rewrite wrap_add_wrap, Fib_SS. reflexivity.
Qed.

Lemma fibonacci_nonneg_wrap_Fib (n : Z) :
  0 <= n <= INT_MAX -> fibonacci n = wrap (Fib (Z.to_nat n)).
Proof.
  intros H. rewrite <- (Z2Nat.id n) at 1 by lia.
  apply fibonacci_wrap_Fib. rewrite Z2Nat.id; lia.
Qed.

(** What [main.c] hands to its [printf] calls. *)
Lemma cache_test_values :
  CacheTest.arithmetic_lines = [ (10, 20, 30); (10, 20, 200) ] /\
  CacheTest.fibonacci_lines
  = [ (0, 0); (1, 1); (2, 1); (3, 2); (4, 3);
      (5, 5); (6, 8); (7, 13); (8, 21); (9, 34) ].
Proof. split; vm_compute; reflexivity. Qed.

(** C10.  For all [int] inputs [a] and [b], [add] returns the sum and
    [multiply] the product whenever that value fits in a signed 32-bit
    integer; otherwise the result is the value reduced modulo 2^32 into
    the [int] range.  Both functions are commutative. *)
Theorem add_multiply_spec (a b : Z) :
  in_range a -> in_range b ->
  (in_range (a + b) -> add a b = a + b) /\
  (in_range (a * b) -> multiply a b = a * b) /\
  (in_range (add a b) /\ add a b mod modulus = (a + b) mod modulus) /\
  (in_range (multiply a b) /\
   multiply a b mod modulus = (a * b) mod modulus) /\
  add a b = add b a /\
  multiply a b = multiply b a.
Proof.
  intros _ _. unfold add, multiply. repeat split.
  - apply wrap_in_range.
  - apply wrap_in_range.
  - apply wrap_range.
  - apply wrap_range.
  - apply wrap_congruent.
  - apply wrap_range.
  - apply wrap_range.
  - apply wrap_congruent.
  - f_equal. lia.
  - f_equal. lia.
Qed.

(** The two calls of [main.c]: [add(10, 20)] and [multiply(10, 20)]. *)
Lemma add_multiply_spec_witness :
  in_range CacheTest.a /\ in_range CacheTest.b /\
  add CacheTest.a CacheTest.b = 30 /\
  multiply CacheTest.a CacheTest.b = 200.
Proof.
  assert (Ha : in_range CacheTest.a) by (vm_compute; split; discriminate).
  assert (Hb : in_range CacheTest.b) by (vm_compute; split; discriminate).
  destruct (add_multiply_spec CacheTest.a CacheTest.b Ha Hb)
    as (Hadd & Hmul & _).
  split; [exact Ha |]. split; [exact Hb |]. split.
  - rewrite Hadd; [reflexivity | vm_compute; split; discriminate].
  - rewrite Hmul; [reflexivity | vm_compute; split; discriminate].
Defined.

(** C9 (as amended).  [fibonacci] is total; on every [int] [n] it
    returns an [int]; for [n <= 1] it returns [n]; for [n >= 2] it
    returns the 32-bit sum of [fibonacci (n - 1)] and
    [fibonacci (n - 2)]; this is the Fibonacci number F(n) for
    [0 <= n <= 46] and F(n) reduced modulo 2^32 for every
    non-negative [n]. *)
Theorem fibonacci_spec (n : Z) :
  in_range n ->
  in_range (fibonacci n) /\
  (n <= 1 -> fibonacci n = n) /\
  (2 <= n ->
   fibonacci n = wrap (fibonacci (n - 1) + fibonacci (n - 2))) /\
  (0 <= n <= 46 -> fibonacci n = Fib (Z.to_nat n)) /\
  (0 <= n -> fibonacci n = wrap (Fib (Z.to_nat n))).
Proof.
  intros Hn. pose proof Hn as Hn'. unfold in_range, INT_MIN, INT_MAX in Hn'.
  repeat split.
  - rewrite fibonacci_unfold.
    destruct (n <=? 1); [apply Hn | apply wrap_range].
  - rewrite fibonacci_unfold.
    destruct (n <=? 1); [apply Hn | apply wrap_range].
  - intros H. rewrite fibonacci_unfold.
    destruct (Z.leb_spec n 1); [reflexivity | lia].
  - intros H. rewrite fibonacci_unfold.
    destruct (Z.leb_spec n 1); [lia |].
    rewrite (wrap_in_range (n - 1)), (wrap_in_range (n - 2))
      by (unfold in_range, INT_MIN, INT_MAX; lia).
    reflexivity.
  - intros H. rewrite fibonacci_nonneg_wrap_Fib by (unfold INT_MAX; lia).
    apply wrap_in_range.
    assert (Hk : (Z.to_nat n <= 46)%nat) by lia.
    pose proof (Fib_mono _ _ Hk) as Hle.
    pose proof (Fib_S_le (Z.to_nat n)) as H0.
    assert (E : Fib 46 = 1836311903) by (vm_compute; reflexivity).
    unfold in_range, INT_MIN, INT_MAX. lia.
  - intros H. apply fibonacci_nonneg_wrap_Fib. unfold INT_MAX. lia.
Qed.

(** The last value [main.c] prints: [fib(9) = 34]. *)
Lemma fibonacci_spec_witness :
  in_range 9 /\ fibonacci 9 = 34 /\ fibonacci 9 = Fib 9.
Proof.
  assert (H9 : in_range 9) by (vm_compute; split; discriminate).
  destruct (fibonacci_spec 9 H9) as (_ & _ & _ & Hfib & _).
  split; [exact H9 |]. split.
  - rewrite Hfib by lia. reflexivity.
  - apply Hfib. lia.
Defined.

(** C9, as stated, fails at [n = 47]: F(47) = 2971215073 does not fit in
    an [int]; the function returns neither F(47) nor the unbounded sum
    of its two recursive calls. *)
Lemma fibonacci_47_not_Fib :
  in_range 47 /\
  fibonacci 47 = -1323752223 /\
  Fib 47 = 2971215073 /\
  fibonacci (47 - 1) + fibonacci (47 - 2) = 2971215073 /\
  fibonacci 47 <> Fib 47 /\
  fibonacci 47 <> fibonacci (47 - 1) + fibonacci (47 - 2).
Proof.
  assert (E47 : fibonacci 47 = -1323752223).
  { rewrite fibonacci_nonneg_wrap_Fib by (unfold INT_MAX; lia).
    vm_compute. reflexivity. }
  assert (E46 : fibonacci (47 - 1) = 1836311903).
  { rewrite fibonacci_nonneg_wrap_Fib by (unfold INT_MAX; lia).
    vm_compute. reflexivity. }
  assert (E45 : fibonacci (47 - 2) = 1134903170).
  { rewrite fibonacci_nonneg_wrap_Fib by (unfold INT_MAX; lia).
    vm_compute. reflexivity. }
  assert (F47 : Fib 47 = 2971215073) by (vm_compute; reflexivity).
  rewrite E47, E46, E45, F47.
  repeat split; try discriminate; try reflexivity.
Qed.

End MathUtilsFacts.

(* ===================================================================== *)
(** * Part III. Properties of the probe                                   *)
(* ===================================================================== *)

Section ProbeFacts.
Import Int32 TestOpenssl.
Local Open Scope string_scope.
Local Open Scope list_scope.
Local Open Scope Z_scope.
Local Open Scope probe_scope.

(** ** Traces *)

Lemma marks_app (t1 t2 : list Event) : marks (t1 ++ t2) = marks t1 ++ marks t2.
Proof.
  induction t1 as [| e t1 IH]; cbn; [reflexivity |].
  destruct (mark_of e); cbn; rewrite IH; reflexivity.
Qed.

Lemma calls_app (t1 t2 : list Event) : calls (t1 ++ t2) = calls t1 ++ calls t2.
Proof.
  induction t1 as [| [c | f a] t1 IH]; cbn; rewrite ?IH; reflexivity.
Qed.

Lemma sections_app (m1 m2 : list Mark) :
  sections (m1 ++ m2) = sections m1 ++ sections m2.
Proof.
  induction m1 as [| [k | s] m1 IH]; cbn; rewrite ?IH; reflexivity.
Qed.

Lemma statuses_app (m1 m2 : list Mark) :
  statuses (m1 ++ m2) = statuses m1 ++ statuses m2.
Proof.
  induction m1 as [| [k | s] m1 IH]; cbn; rewrite ?IH; reflexivity.
Qed.

Lemma nofail_app (m1 m2 : list Mark) :
  nofail (m1 ++ m2) = (nofail m1 && nofail m2)%bool.
Proof. apply forallb_app. Qed.

Lemma no_cleanup_app (c1 c2 : list Call) :
  no_cleanup (c1 ++ c2) = (no_cleanup c1 && no_cleanup c2)%bool.
Proof. apply forallb_app. Qed.

Lemma live_from_app (held : list Resource) (c1 c2 : list Call) :
  live_from held (c1 ++ c2) = live_from (live_from held c1) c2.
Proof.
  revert held. induction c1 as [| c c1 IH]; intros held; cbn; [reflexivity |].
  destruct (acquires c); [apply IH |].
  destruct (releases c); apply IH.
Qed.

Lemma stops_on_fail_spec (t : list Event) :
  stops_on_fail t = true <->
  exists t0 e, t = t0 ++ [e] /\ mark_of e = Some (MResult Fail)
               /\ nofail (marks t0) = true.
Proof.
  unfold stops_on_fail. split.
  - destruct (rev t) as [| e before] eqn:E; [discriminate |].
    intros H. exists (rev before), e.
    assert (Et : t = rev before ++ [e]).
    { rewrite <- (rev_involutive t), E. reflexivity. }
    destruct (mark_of e) as [[k | [ | | ]] |]; try discriminate.
    auto.
  - intros (t0 & e & -> & He & Hn).
    rewrite rev_app_distr. cbn. rewrite He, rev_involutive. exact Hn.
Qed.

Lemma stops_on_fail_app (t1 t2 : list Event) :
  nofail (marks t1) = true -> stops_on_fail t2 = true ->
  stops_on_fail (t1 ++ t2) = true.
Proof.
  intros H1 H2. apply stops_on_fail_spec in H2 as (t0 & e & -> & He & Hn).
  apply stops_on_fail_spec. exists (t1 ++ t0), e.
  rewrite app_assoc, marks_app, nofail_app, H1, Hn. auto.
Qed.

(** ** Sequencing *)

Lemma bind_next {A B} (t : list Event) (a : A) (f : A -> M B) :
  bind (t, Next a) f = (t ++ trace (f a), snd (f a)).
Proof. cbn. destruct (f a); reflexivity. Qed.

Lemma bind_return {A B} (t : list Event) (c : Z) (f : A -> M B) :
  bind (t, Return c) f = (t, Return c).
Proof. reflexivity. Qed.

(** ** The blocks, one by one *)

Variable p : Provider.
Variable OPENSSL_CONF : option string.

(** Once the provider's answers are fixed, a block is a concrete list
    of events and its facts are computed. *)
Ltac block_close :=
  split;
  [ vm_compute; reflexivity
  | vm_compute; repeat split; reflexivity
  | vm_compute; reflexivity
  | cbn [bind invoke printf return_ ret for_each seq app trace fst snd];
    first [ intros held | left; intros held ];
    cbn [calls live_from acquires releases release Resource_eqb];
    rewrite ?Pos.eqb_refl; reflexivity ].

Ltac block_open f :=
  unfold f; cbv beta iota zeta delta [bind invoke printf return_ ret].

Lemma test_1_ok : block_ok p 1 (test_1 p).
Proof. block_open test_1. block_close. Qed.

Lemma test_2_ok : block_ok p 2 (test_2 p).
Proof.
  block_open test_2.
  destruct (SSL_library_init p =? 1),
           (SSL_load_error_strings p =? 1),
           (OpenSSL_add_all_algorithms p =? 1); block_close.
Qed.

Lemma test_3_ok : block_ok p 3 (test_3 p).
Proof. block_open test_3. destruct (EVP_sha256 p); block_close. Qed.

Lemma test_4_ok : block_ok p 4 (test_4 p).
Proof.
  block_open test_4.
  destruct (RAND_bytes p sizeof_random_bytes) as [status random_bytes].
  destruct (status =? 1); block_close.
Qed.

Lemma test_5_ok : block_ok p 5 (test_5 p).
Proof. block_open test_5. destruct (EVP_MD_CTX_new p 0); block_close. Qed.

Lemma test_6_ok : block_ok p 6 (test_6 p).
Proof.
  block_open test_6. destruct (BIO_new p) as [bio |] eqn:Ebio; [| block_close].
  destruct (BIO_write p bio _ _ >? 0) eqn:Ewr; [block_close |].
  split;
    [ vm_compute; reflexivity
    | vm_compute; repeat split; reflexivity
    | vm_compute; reflexivity
    | right; exists bio;
      split; [first [exact Ebio | reflexivity] |];
      split; [exact Ewr | intros held; reflexivity] ].
Qed.

Lemma test_7_ok : block_ok p 7 (test_7 p).
Proof. block_open test_7. destruct (SSL_CTX_new p); block_close. Qed.

Lemma test_8_ok : block_ok p 8 (test_8 p).
Proof. block_open test_8. destruct (EVP_MD_CTX_new p 1); block_close. Qed.

Lemma test_10_ok : block_ok p 10 (test_10 p OPENSSL_CONF).
Proof.
  block_open test_10. destruct OPENSSL_CONF, (FIPS_mode p =? 1); block_close.
Qed.

(** ** The loop of test 9 *)

Lemma check_algorithm_eq (i : nat) (c : Z) :
  check_algorithm p i c =
    (algorithm_events p i,
     Next (if available p (nth i algorithms "") then wrap (c + 1) else c)).
Proof.
  unfold check_algorithm, algorithm_events, lookup_calls, availability_line,
    available.
  cbv zeta. generalize (nth i algorithms ""). intros name.
  cbv beta iota zeta delta [bind invoke printf return_ ret].
  destruct (EVP_get_digestbyname p name); [reflexivity |].
  destruct (EVP_get_cipherbyname p name); reflexivity.
Qed.

Lemma algorithm_loop (l : list nat) (c : Z) :
  for_each l (check_algorithm p) c =
    (flat_map (algorithm_events p) l, Next (count_after p l c)).
Proof.
  revert c. induction l as [| i l IH]; intros c; [reflexivity |].
  cbn [for_each flat_map]. rewrite check_algorithm_eq, bind_next, IH.
  reflexivity.
Qed.

Lemma count_after_exact (l : list nat) (c : Z) :
  0 <= c -> c + Z.of_nat (List.length l) <= INT_MAX ->
  count_after p l c =
    c + Z.of_nat (List.length (filter (fun i => available p (nth i algorithms "")) l)).
Proof.
  unfold count_after. revert c.
  induction l as [| i l IH]; intros c H0 Hmax; cbn [fold_left filter List.length].
  - lia.
  - cbn [List.length] in Hmax.
    assert (Hmax' : c + 1 + Z.of_nat (List.length l) <= INT_MAX) by lia.
    unfold INT_MAX in Hmax.
    destruct (available p (nth i algorithms "")).
    + rewrite wrap_in_range
        by (unfold in_range, INT_MIN, INT_MAX; lia).
      rewrite IH by lia. cbn [List.length]. lia.
    + rewrite IH by (unfold INT_MAX; lia). lia.
Qed.

Lemma quiet_nil : quiet [].
Proof. repeat split. Qed.

Lemma quiet_app (t1 t2 : list Event) : quiet t1 -> quiet t2 -> quiet (t1 ++ t2).
Proof.
  intros (S1 & F1 & C1 & L1) (S2 & F2 & C2 & L2). repeat split.
  - rewrite marks_app, sections_app, S1, S2. reflexivity.
  - rewrite marks_app, nofail_app, F1, F2. reflexivity.
  - rewrite calls_app, no_cleanup_app, C1, C2. reflexivity.
  - intros held. rewrite calls_app, live_from_app, L1, L2. reflexivity.
Qed.

Lemma quiet_algorithm_events (i : nat) : quiet (algorithm_events p i).
Proof.
  unfold algorithm_events, lookup_calls, availability_line.
  generalize (nth i algorithms ""). intros name.
  destruct (is_some (EVP_get_digestbyname p name)), (available p name);
    repeat split.
Qed.

Lemma quiet_flat_map (l : list nat) : quiet (flat_map (algorithm_events p) l).
Proof.
  induction l as [| i l IH]; cbn [flat_map].
  - apply quiet_nil.
  - apply quiet_app; [apply quiet_algorithm_events | exact IH].
Qed.

Lemma filter_map_length {A B} (f : B -> bool) (g : A -> B) (l : list A) :
  List.length (filter f (map g l)) = List.length (filter (fun a => f (g a)) l).
Proof.
  induction l as [| a l IH]; cbn; [reflexivity |].
  destruct (f (g a)); cbn; rewrite IH; reflexivity.
Qed.

Lemma available_count_exact :
  count_after p (seq 0 algorithms_len) 0
  = Z.of_nat (List.length (available_names p)).
Proof.
  rewrite count_after_exact;
    [| lia | vm_compute; discriminate].
  unfold available_names.
  change algorithms
    with (map (fun i => nth i algorithms "") (seq 0 algorithms_len)) at 2.
  rewrite filter_map_length. lia.
Qed.

(** Test 9 in full: the header, the eight iterations, the summary. *)
Lemma test_9_eq :
  test_9 p =
    ([Printf "9. Algorithm Availability Test:\n" []]
     ++ flat_map (algorithm_events p) (seq 0 algorithms_len)
     ++ [Printf "   ✓ %d/%zu algorithms available\n"
           [AInt (Z.of_nat (List.length (available_names p)));
            ASize (Z.of_nat algorithms_len)];
         Printf "\n" []],
     Next tt).
Proof.
  unfold test_9. unfold printf at 1. rewrite bind_next.
  rewrite algorithm_loop, bind_next, available_count_exact.
  reflexivity.
Qed.

Lemma test_9_ok : block_ok p 9 (test_9 p).
Proof.
  rewrite test_9_eq.
  destruct (quiet_flat_map (seq 0 algorithms_len)) as (S & F & C & L).
  split; cbn [trace fst snd].
  - rewrite !marks_app, !sections_app, S. reflexivity.
  - rewrite !marks_app, !nofail_app, F. reflexivity.
  - rewrite !calls_app, !no_cleanup_app, C. reflexivity.
  - intros held. rewrite !calls_app, !live_from_app, L. reflexivity.
Qed.

Lemma marks_algorithm_events (i : nat) :
  marks (algorithm_events p i)
  = [MResult (if available p (nth i algorithms "") then Pass else Skipped)].
Proof.
  unfold algorithm_events, lookup_calls, availability_line.
  generalize (nth i algorithms ""). intros name.
  destruct (is_some (EVP_get_digestbyname p name)), (available p name);
    reflexivity.
Qed.

Lemma marks_algorithm_loop (l : list nat) :
  marks (flat_map (algorithm_events p) l)
  = map (fun i => MResult (if available p (nth i algorithms "")
                           then Pass else Skipped)) l.
Proof.
  induction l as [| i l IH]; [reflexivity |].
  cbn [flat_map map]. rewrite marks_app, marks_algorithm_events, IH.
  reflexivity.
Qed.

Lemma marks_test_9 :
  marks (trace (test_9 p))
  = MSection 9
    :: map (fun name => MResult (if available p name then Pass else Skipped))
           algorithms
    ++ [MResult Pass].
Proof.
  rewrite test_9_eq. cbn [trace fst].
  rewrite !marks_app, marks_algorithm_loop. reflexivity.
Qed.

(** ** The whole run *)

Lemma run_ok_skip (ks : list nat) (fmt : string) (args : list Arg) (r : M unit) :
  mark_of (Printf fmt args) = None ->
  run_ok p ks r -> run_ok p ks (printf fmt args ;; r).
Proof.
  intros Hm H. unfold printf. rewrite bind_next.
  assert (Em : forall t, marks (Printf fmt args :: t) = marks t).
  { intros t. cbn [marks]. rewrite Hm. reflexivity. }
  unfold run_ok in *. cbn [trace fst snd app] in *.
  destruct (snd r) as [a | c]; [exact H |].
  destruct H as [(-> & Hf & Hs & Hc & Hl) | (-> & Hf & Hs & Hc & Hl)].
  - left. rewrite Em. cbn [calls]. auto.
  - right. rewrite Em. cbn [calls]. repeat split; auto.
    change (Printf fmt args :: trace r) with ([Printf fmt args] ++ trace r).
    apply stops_on_fail_app; [| exact Hf].
    cbn [marks]. rewrite Hm. reflexivity.
Qed.

Lemma run_ok_step (k : nat) (ks : list nat) (b r : M unit) :
  block_ok p k b -> run_ok p ks r -> run_ok p (k :: ks) (b ;; r).
Proof.
  intros [Bs Bv Bc Bl] H. destruct b as [tb [[] | cb]].
  - (* the block runs to its end *)
    rewrite bind_next. cbn [trace fst snd] in *.
    unfold run_ok in *. cbn [trace fst snd] in *.
    destruct (snd r) as [a | c]; [exact H |].
    rewrite marks_app, sections_app, nofail_app, calls_app, no_cleanup_app,
      Bs, Bv, Bc.
    destruct H as [(-> & Hf & Hs & (cs & Ecs & Hcs) & Hl)
                  | (-> & Hf & (n & Hn & Hs & Hfal) & Hc & Hl)].
    + left. rewrite Hf, Hs. repeat split.
      * exists (calls tb ++ cs). rewrite Ecs, no_cleanup_app, Bc, Hcs.
        rewrite app_assoc. auto.
      * intros held. rewrite live_from_app, Bl. apply Hl.
    + right. rewrite Hc. repeat split.
      * apply stops_on_fail_app; assumption.
      * exists (S n). cbn [List.length nth]. rewrite Hs.
        split; [lia |]. split; [reflexivity | exact Hfal].
      * destruct Hl as [Hl | (h & Eh & Ew & Hl)]; [left | right].
        -- intros held. rewrite live_from_app, Bl. apply Hl.
        -- exists h. repeat split; auto.
           intros held. rewrite live_from_app, Bl. apply Hl.
  - (* the block returns 1 *)
    rewrite bind_return. unfold run_ok. cbn [trace fst snd] in *.
    destruct Bv as (-> & Hstop & Hfal).
    right. repeat split; auto.
    exists 0%nat. cbn [List.length nth firstn]. rewrite Bs.
    split; [lia |]. split; [reflexivity | exact Hfal].
Qed.

(** The last block and the closing banner. *)
Lemma run_ok_test_11 (r : M unit) :
  r = (printf "======================================================\n" [] ;;
       printf "🎉 All OpenSSL tests passed successfully!\n" [] ;;
       printf "   OpenSSL is properly installed and functional.\n" [] ;;
       printf "======================================================\n" [] ;;
       return_ 0) ->
  run_ok p [11%nat] (test_11 ;; r).
Proof.
  intros ->. left. repeat split.
  - exists []. split; reflexivity.
Qed.

Lemma main_run_ok : run_ok p (seq 1 11) (main p OPENSSL_CONF).
Proof.
  unfold main.
  do 2 (apply run_ok_skip; [reflexivity |]).
  apply (run_ok_step 1); [apply test_1_ok |].
  apply (run_ok_step 2); [apply test_2_ok |].
  apply (run_ok_step 3); [apply test_3_ok |].
  apply (run_ok_step 4); [apply test_4_ok |].
  apply (run_ok_step 5); [apply test_5_ok |].
  apply (run_ok_step 6); [apply test_6_ok |].
  apply (run_ok_step 7); [apply test_7_ok |].
  apply (run_ok_step 8); [apply test_8_ok |].
  apply (run_ok_step 9); [apply test_9_ok |].
  apply (run_ok_step 10); [apply test_10_ok |].
  apply run_ok_test_11. reflexivity.
Qed.

(** ** The exit status in terms of the provider's answers *)

Lemma exit_code_bind (ok : bool) (b r : M unit) :
  outcome_code (snd b) = (if ok then None else Some 1) ->
  exit_code (b ;; r) = if ok then exit_code r else 1.
Proof.
  destruct b as [t [[] | c]], ok; cbn [snd outcome_code]; intros H;
    try discriminate H.
  - rewrite bind_next. reflexivity.
  - rewrite bind_return. injection H as ->. reflexivity.
Qed.

Ltac outcome_of f :=
  unfold f; cbv beta iota zeta delta [bind invoke printf return_ ret].

Lemma test_1_outcome : outcome_code (snd (test_1 p)) = None.
Proof. reflexivity. Qed.

Lemma test_2_outcome :
  outcome_code (snd (test_2 p))
  = if ((SSL_library_init p =? 1) && (SSL_load_error_strings p =? 1)
        && (OpenSSL_add_all_algorithms p =? 1))%bool
    then None else Some 1.
Proof.
  outcome_of test_2.
  destruct (SSL_library_init p =? 1), (SSL_load_error_strings p =? 1),
           (OpenSSL_add_all_algorithms p =? 1); reflexivity.
Qed.

Lemma test_3_outcome :
  outcome_code (snd (test_3 p)) = if is_some (EVP_sha256 p) then None else Some 1.
Proof. outcome_of test_3. destruct (EVP_sha256 p); reflexivity. Qed.

Lemma test_4_outcome :
  outcome_code (snd (test_4 p))
  = if fst (RAND_bytes p sizeof_random_bytes) =? 1 then None else Some 1.
Proof.
  outcome_of test_4.
  destruct (RAND_bytes p sizeof_random_bytes) as [status random_bytes].
  cbn [fst]. destruct (status =? 1); reflexivity.
Qed.

Lemma test_5_outcome : outcome_code (snd (test_5 p)) = None.
Proof. outcome_of test_5. destruct (EVP_MD_CTX_new p 0); reflexivity. Qed.

Lemma test_6_outcome :
  outcome_code (snd (test_6 p)) = if bio_ok p then None else Some 1.
Proof.
  outcome_of test_6. unfold bio_ok.
  destruct (BIO_new p) as [bio |]; [| reflexivity].
  destruct (BIO_write p bio _ _ >? 0); reflexivity.
Qed.

Lemma test_7_outcome :
  outcome_code (snd (test_7 p)) = if is_some (SSL_CTX_new p) then None else Some 1.
Proof. outcome_of test_7. destruct (SSL_CTX_new p); reflexivity. Qed.

Lemma test_8_outcome :
  outcome_code (snd (test_8 p))
  = if is_some (EVP_MD_CTX_new p 1) then None else Some 1.
Proof. outcome_of test_8. destruct (EVP_MD_CTX_new p 1); reflexivity. Qed.

Lemma test_9_outcome : outcome_code (snd (test_9 p)) = None.
Proof. rewrite test_9_eq. reflexivity. Qed.

Lemma test_10_outcome : outcome_code (snd (test_10 p OPENSSL_CONF)) = None.
Proof.
  outcome_of test_10. destruct OPENSSL_CONF, (FIPS_mode p =? 1); reflexivity.
Qed.

(** [main] returns 0 when every required answer is a success and 1 when
    one of them is not. *)
Lemma exit_code_required :
  exit_code (main p OPENSSL_CONF) = if required_ok p then 0 else 1.
Proof.
  unfold main, required_ok.
  do 2 (rewrite (exit_code_bind true) by reflexivity).
  rewrite (exit_code_bind true) by apply test_1_outcome.
  rewrite (exit_code_bind _ _ _ test_2_outcome).
  rewrite (exit_code_bind _ _ _ test_3_outcome).
  rewrite (exit_code_bind _ _ _ test_4_outcome).
  rewrite (exit_code_bind true) by apply test_5_outcome.
  rewrite (exit_code_bind _ _ _ test_6_outcome).
  rewrite (exit_code_bind _ _ _ test_7_outcome).
  rewrite (exit_code_bind _ _ _ test_8_outcome).
  rewrite (exit_code_bind true) by apply test_9_outcome.
  rewrite (exit_code_bind true) by apply test_10_outcome.
  destruct (SSL_library_init p =? 1), (SSL_load_error_strings p =? 1),
           (OpenSSL_add_all_algorithms p =? 1), (is_some (EVP_sha256 p)),
           (fst (RAND_bytes p sizeof_random_bytes) =? 1), (bio_ok p),
           (is_some (SSL_CTX_new p)), (is_some (EVP_MD_CTX_new p 1));
    reflexivity.
Qed.

(** ** From the run to its report *)

Lemma last_cons_default {A} (x d : A) (l : list A) : last (x :: l) d = last l x.
Proof.
  revert x d. induction l as [| y l IH]; intros x d; [reflexivity |].
  change (last (x :: y :: l) d) with (last (y :: l) d).
  rewrite (IH y d), (IH y x). reflexivity.
Qed.

Lemma report_from_app (k : nat) (t1 t2 : list Event) :
  report_from k (t1 ++ t2)
  = report_from k t1 ++ report_from (cur_section k (marks t1)) t2.
Proof.
  revert k. induction t1 as [| e t1 IH]; intros k; [reflexivity |].
  cbn [app report_from marks]. unfold cur_section in *.
  destruct (mark_of e) as [[j | s] |]; cbn [sections].
  - rewrite IH, last_cons_default. reflexivity.
  - rewrite IH. reflexivity.
  - apply IH.
Qed.


Lemma overall_pass_iff (R : list CheckResult) :
  overall R = Pass <-> (forall r, In r R -> status r <> Fail).
Proof.
  unfold overall. split.
  - intros H r Hr E.
    destruct (existsb _ R) eqn:Ex; [discriminate |].
    assert (Ht : existsb (fun c => is_fail (status c)) R = true).
    { apply existsb_exists. exists r. rewrite E. auto. }
    congruence.
  - intros H. destruct (existsb _ R) eqn:Ex; [| reflexivity].
    apply existsb_exists in Ex as (r & Hr & Hf).
    exfalso. apply (H r Hr). destruct (status r); [discriminate | reflexivity | discriminate].
Qed.

(** The report of a run that stopped on a [Fail] line. *)
Lemma report_stops_on_fail (t : list Event) :
  stops_on_fail t = true ->
  exists t0 e,
    t = t0 ++ [e] /\
    nofail (marks t0) = true /\
    sections (marks t) = sections (marks t0) /\
    report t
    = report t0
      ++ [{| section := cur_section 0 (marks t0);
             category := category_of_section (cur_section 0 (marks t0));
             status := Fail;
             detail := e |}].
Proof.
  intros H. apply stops_on_fail_spec in H as (t0 & e & -> & He & Hn).
  exists t0, e. repeat split; [exact Hn | |].
  - rewrite marks_app, sections_app. cbn [marks]. rewrite He.
    cbn. apply app_nil_r.
  - unfold report. rewrite report_from_app. cbn [report_from].
    rewrite He. reflexivity.
Qed.

Lemma firstn_seq_1_11 (n : nat) :
  (n < 11)%nat ->
  firstn (S n) (seq 1 11) = seq 1 (S n) /\ last (seq 1 (S n)) 0%nat = S n
  /\ nth n (seq 1 11) 0%nat = S n.
Proof.
  intros H. do 11 (destruct n as [| n]; [repeat split |]). lia.
Qed.

(** The two ways [main] ends. *)
Lemma main_ends :
  (snd (main p OPENSSL_CONF) = Return 0 /\
   nofail (marks (trace (main p OPENSSL_CONF))) = true /\
   sections (marks (trace (main p OPENSSL_CONF))) = seq 1 11 /\
   (exists cs, calls (trace (main p OPENSSL_CONF))
               = cs ++ [Call_EVP_cleanup; Call_ERR_free_strings]
               /\ no_cleanup cs = true) /\
   live (trace (main p OPENSSL_CONF)) = [])
  \/
  (snd (main p OPENSSL_CONF) = Return 1 /\
   stops_on_fail (trace (main p OPENSSL_CONF)) = true /\
   (exists k, sections (marks (trace (main p OPENSSL_CONF))) = seq 1 k
              /\ last (seq 1 k) 0%nat = k /\ fallible k = true) /\
   no_cleanup (calls (trace (main p OPENSSL_CONF))) = true /\
   leak_spec p (calls (trace (main p OPENSSL_CONF)))).
Proof.
  pose proof main_run_ok as H. unfold run_ok in H.
  destruct (snd (main p OPENSSL_CONF)) as [a | c]; [contradiction |].
  destruct H as [(-> & Hf & Hs & Hc & Hl) | (-> & Hf & (n & Hn & Hs & Hfal) & Hc & Hl)].
  - left. repeat split; auto. apply Hl.
  - right. repeat split; auto.
    rewrite length_seq in Hn.
    destruct (firstn_seq_1_11 n Hn) as (E1 & E2 & E3).
    exists (S n). rewrite Hs, E1, E2. rewrite E3 in Hfal. auto.
Qed.

End ProbeFacts.

(** ** Two runs side by side *)

Section TwoRuns.
Import Int32 TestOpenssl.
Local Open Scope string_scope.
Local Open Scope list_scope.
Local Open Scope Z_scope.
Local Open Scope probe_scope.

Lemma filed_report_from (k : nat) (t : list Event) :
  map (fun r => (section r, status r)) (report_from k t) = filed k (marks t).
Proof.
  revert k. induction t as [| e t IH]; intros k; [reflexivity |].
  cbn [report_from marks].
  destruct (mark_of e) as [[j | s] |]; cbn; rewrite ?IH; reflexivity.
Qed.

Lemma outline_report_from (k : nat) (t : list Event) :
  outline (report_from k t)
  = map (fun ks => (category_of_section (fst ks), snd ks)) (filed k (marks t)).
Proof.
  revert k. induction t as [| e t IH]; intros k; [reflexivity |].
  cbn [report_from marks].
  destruct (mark_of e) as [[j | s] |]; cbn; rewrite ?IH; reflexivity.
Qed.

Lemma exit_code_outcome {A} (m : M A) :
  exit_code m = match outcome_code (snd m) with Some c => c | None => 0 end.
Proof. unfold exit_code. destruct (snd m); reflexivity. Qed.

Section Sim.
Context {X : Type} (obs : list Event -> list X).
Hypothesis obs_app : forall t1 t2, obs (t1 ++ t2) = obs t1 ++ obs t2.

Lemma sim_refl (m : M unit) : sim obs m m.
Proof. split; reflexivity. Qed.

Lemma sim_bind (m1 m2 r1 r2 : M unit) :
  sim obs m1 m2 -> sim obs r1 r2 -> sim obs (m1 ;; r1) (m2 ;; r2).
Proof.
  intros [Hm Ho] [Hr Hro].
  destruct m1 as [t1 [[] | c1]], m2 as [t2 [[] | c2]];
    cbn [snd outcome_code] in Ho; try discriminate.
  - rewrite !bind_next. split; cbn [trace fst snd] in *.
    + rewrite !obs_app. congruence.
    + exact Hro.
  - rewrite !bind_return. split; assumption.
Qed.
End Sim.

Variables p q : Provider.
Variable conf : option string.
Hypothesis same : same_indicators p q.

Ltac open_both f :=
  unfold sim, f; cbv beta iota zeta delta [bind invoke printf return_ ret].

Ltac close_both := split; vm_compute; reflexivity.

Lemma test_1_sim : sim marks (test_1 p) (test_1 q).
Proof. open_both test_1. close_both. Qed.

Lemma test_2_sim : sim marks (test_2 p) (test_2 q).
Proof.
  destruct same as (H1 & H2 & H3 & _).
  open_both test_2. rewrite <- H1, <- H2, <- H3.
  destruct (SSL_library_init p =? 1),
           (SSL_load_error_strings p =? 1),
           (OpenSSL_add_all_algorithms p =? 1); close_both.
Qed.

Lemma test_3_sim : sim marks (test_3 p) (test_3 q).
Proof.
  destruct same as (_ & _ & _ & H & _).
  open_both test_3.
  destruct (EVP_sha256 p), (EVP_sha256 q); try discriminate H; close_both.
Qed.

Lemma test_4_sim : sim marks (test_4 p) (test_4 q).
Proof.
  destruct same as (_ & _ & _ & _ & H & _).
  open_both test_4.
  destruct (RAND_bytes p sizeof_random_bytes) as [sp bp],
           (RAND_bytes q sizeof_random_bytes) as [sq bq].
  cbn [fst] in H. rewrite <- H. destruct (sp =? 1); close_both.
Qed.

Lemma test_5_sim : sim marks (test_5 p) (test_5 q).
Proof.
  destruct same as (_ & _ & _ & _ & _ & H & _). specialize (H 0%nat).
  open_both test_5.
  destruct (EVP_MD_CTX_new p 0), (EVP_MD_CTX_new q 0);
    try discriminate H; close_both.
Qed.

Lemma test_6_sim : sim marks (test_6 p) (test_6 q).
Proof.
  destruct same as (_ & _ & _ & _ & _ & _ & H & Hw & _).
  open_both test_6.
  destruct (BIO_new p) as [h |] eqn:Ep, (BIO_new q) as [h' |] eqn:Eq;
    try discriminate H; [| close_both].
  rewrite <- (Hw h h' _ _ eq_refl eq_refl).
  destruct (BIO_write p h _ _ >? 0); close_both.
Qed.

Lemma test_7_sim : sim marks (test_7 p) (test_7 q).
Proof.
  destruct same as (_ & _ & _ & _ & _ & _ & _ & _ & H & _).
  open_both test_7.
  destruct (SSL_CTX_new p), (SSL_CTX_new q); try discriminate H; close_both.
Qed.

Lemma test_8_sim : sim marks (test_8 p) (test_8 q).
Proof.
  destruct same as (_ & _ & _ & _ & _ & H & _). specialize (H 1%nat).
  open_both test_8.
  destruct (EVP_MD_CTX_new p 1), (EVP_MD_CTX_new q 1);
    try discriminate H; close_both.
Qed.

Lemma test_9_sim : sim marks (test_9 p) (test_9 q).
Proof.
  destruct same as (_ & _ & _ & _ & _ & _ & _ & _ & _ & H & _).
  split.
  - rewrite !marks_test_9. f_equal. f_equal.
    apply map_ext_in. intros name Hin. rewrite (H name Hin). reflexivity.
  - rewrite !test_9_eq. reflexivity.
Qed.

Lemma test_10_sim : sim marks (test_10 p conf) (test_10 q conf).
Proof.
  destruct same as (_ & _ & _ & _ & _ & _ & _ & _ & _ & _ & H).
  open_both test_10. rewrite <- H.
  destruct conf, (FIPS_mode p =? 1); close_both.
Qed.

Lemma main_sim : sim marks (main p conf) (main q conf).
Proof.
  unfold main.
  do 2 (apply (sim_bind marks marks_app); [apply sim_refl |]).
  apply (sim_bind marks marks_app); [apply test_1_sim |].
  apply (sim_bind marks marks_app); [apply test_2_sim |].
  apply (sim_bind marks marks_app); [apply test_3_sim |].
  apply (sim_bind marks marks_app); [apply test_4_sim |].
  apply (sim_bind marks marks_app); [apply test_5_sim |].
  apply (sim_bind marks marks_app); [apply test_6_sim |].
  apply (sim_bind marks marks_app); [apply test_7_sim |].
  apply (sim_bind marks marks_app); [apply test_8_sim |].
  apply (sim_bind marks marks_app); [apply test_9_sim |].
  apply (sim_bind marks marks_app); [apply test_10_sim |].
  apply sim_refl.
Qed.

End TwoRuns.

(** ** The configuration path *)

Section ConfigPath.
Import Int32 TestOpenssl.
Local Open Scope string_scope.
Local Open Scope list_scope.
Local Open Scope Z_scope.
Local Open Scope probe_scope.

Variable p : Provider.
Variables conf conf' : option string.

Lemma blocks_of_app (t1 t2 : list Event) :
  blocks_of (t1 ++ t2) = blocks_of t1 ++ blocks_of t2.
Proof. unfold blocks_of. rewrite marks_app, sections_app. reflexivity. Qed.

Lemma test_10_next : snd (test_10 p conf) = Next tt.
Proof.
  unfold test_10. cbv beta iota zeta delta [bind invoke printf return_ ret].
  destruct conf, (FIPS_mode p =? 1); reflexivity.
Qed.

Lemma test_10_sim_calls : sim calls (test_10 p conf) (test_10 p conf').
Proof.
  unfold sim, test_10. cbv beta iota zeta delta [bind invoke printf return_ ret].
  destruct conf, conf', (FIPS_mode p =? 1); split; reflexivity.
Qed.

Lemma test_10_sim_blocks : sim blocks_of (test_10 p conf) (test_10 p conf').
Proof.
  unfold sim, test_10. cbv beta iota zeta delta [bind invoke printf return_ ret].
  destruct conf, conf', (FIPS_mode p =? 1); split; vm_compute; reflexivity.
Qed.

Lemma main_conf_sim {X} (obs : list Event -> list X) :
  (forall t1 t2, obs (t1 ++ t2) = obs t1 ++ obs t2) ->
  sim obs (test_10 p conf) (test_10 p conf') ->
  sim obs (main p conf) (main p conf').
Proof.
  intros Happ H10. unfold main.
  do 11 (apply (sim_bind obs Happ); [apply sim_refl |]).
  apply (sim_bind obs Happ); [exact H10 |].
  apply sim_refl.
Qed.

End ConfigPath.

(* ===================================================================== *)
(** * Part IV. The claims about the probe                                 *)
(* ===================================================================== *)

Section ProbeClaims.
Import Int32 TestOpenssl.
Local Open Scope string_scope.
Local Open Scope list_scope.
Local Open Scope Z_scope.
Local Open Scope probe_scope.

(** A required answer that is not a success shows as a [Fail] in the
    report. *)
Lemma failure_is_reported (p : Provider) (conf : option string) :
  required_ok p = false ->
  exists i r,
    nth_error (report (trace (main p conf))) i = Some r /\ status r = Fail.
Proof.
  intros Hreq. pose proof (exit_code_required p conf) as Hexit.
  rewrite Hreq in Hexit. unfold exit_code in Hexit.
  destruct (main_ends p conf) as [(Hs & _) | (_ & Hf & _)].
  - rewrite Hs in Hexit. discriminate Hexit.
  - apply report_stops_on_fail in Hf as (t0 & e & _ & _ & _ & Hrep).
    exists (List.length (report t0)). eexists.
    rewrite Hrep, nth_error_app2, Nat.sub_diag by lia.
    split; reflexivity.
Qed.



(** Resources still held when the process returns: none, unless
    [BIO_new] succeeded and [BIO_write] failed, in which case the BIO
    of test 6 is never freed. *)
Lemma leak_only_on_bio_write_failure (p : Provider) (conf : option string) :
  live (trace (main p conf)) = [] \/
  (exists h,
      BIO_new p = Some h /\
      BIO_write p h "Hello, OpenSSL!" 15 <= 0 /\
      exit_code (main p conf) = 1 /\
      live (trace (main p conf)) = [RBio h]).
Proof.
  destruct (main_ends p conf)
    as [(_ & _ & _ & _ & Hl) | (Hs & _ & _ & _ & [Hl | (h & Eh & Ew & Hl)])].
  - left. exact Hl.
  - left. apply Hl.
  - right. exists h. unfold exit_code. rewrite Hs.
    repeat split; [exact Eh | | apply Hl].
    change (strlen "Hello, OpenSSL!") with 15 in Ew.
    destruct (Z.gtb_spec (BIO_write p h "Hello, OpenSSL!" 15) 0);
      [discriminate | lia].
Qed.

(** C3 fails on the code.  With [BIO_new] succeeding and [BIO_write]
    returning 0, test 6 returns 1 right after the [BIO_write] call:
    [BIO_free] is never called and the BIO is still held when the
    process exits. *)
Theorem bio_write_failure_leaks_bio :
  exit_code (main Samples.bio_write_fails None) = 1 /\
  calls (trace (test_6 Samples.bio_write_fails))
    = [Call_BIO_s_mem; Call_BIO_new (Some 31%positive);
       Call_BIO_write 31%positive 15] /\
  snd (test_6 Samples.bio_write_fails) = Return 1 /\
  live (trace (main Samples.bio_write_fails None)) = [RBio 31%positive] /\
  calls (trace (test_6 Samples.functional))
    = [Call_BIO_s_mem; Call_BIO_new (Some 31%positive);
       Call_BIO_write 31%positive 15; Call_BIO_free 31%positive].
Proof. repeat split. Qed.

(** C4 (as amended).  On a run that goes through all the blocks (exit
    status 0), [EVP_cleanup] and [ERR_free_strings] are called once each,
    in this order, after every other library call of the run and before
    [main] returns.  On a run that stops at a failed check (exit status
    other than 0) neither is called. *)
Theorem cleanup_once_on_full_run (p : Provider) (conf : option string) :
  (exit_code (main p conf) = 0 \/ exit_code (main p conf) = 1) /\
  (exit_code (main p conf) = 0 ->
   exists cs,
     calls (trace (main p conf))
     = cs ++ [Call_EVP_cleanup; Call_ERR_free_strings] /\
     no_cleanup cs = true) /\
  (exit_code (main p conf) <> 0 ->
   no_cleanup (calls (trace (main p conf))) = true).
Proof.
  unfold exit_code.
  destruct (main_ends p conf)
    as [(Hs & _ & _ & Hc & _) | (Hs & _ & _ & Hc & _)]; rewrite Hs.
  - split; [left; reflexivity |]. split; [intros _; exact Hc |].
    intros H. congruence.
  - split; [right; reflexivity |]. split; [discriminate |].
    intros _. exact Hc.
Qed.

(** A full run: the two clean-up calls close the list of calls. *)
Lemma cleanup_once_on_full_run_witness :
  exit_code (main Samples.functional None) = 0 /\
  exists cs,
    calls (trace (main Samples.functional None))
    = cs ++ [Call_EVP_cleanup; Call_ERR_free_strings] /\
    no_cleanup cs = true.
Proof.
  assert (H : exit_code (main Samples.functional None) = 0) by reflexivity.
  split; [exact H |].
  exact (proj1 (proj2 (cleanup_once_on_full_run Samples.functional None)) H).
Defined.

(** C4, as stated, fails on a run that stops at a failed check: with
    [SSL_library_init] returning 0 the process returns 1 after seven
    library calls, none of them a clean-up call. *)
Lemma cleanup_skipped_on_abort :
  exit_code (main Samples.init_fails None) = 1 /\
  calls (trace (main Samples.init_fails None))
    = [Call_OpenSSL_version OPENSSL_VERSION;
       Call_OpenSSL_version OPENSSL_VERSION_STRING;
       Call_OpenSSL_version OPENSSL_VERSION_BUILD_DATE;
       Call_OpenSSL_version OPENSSL_VERSION_COMPILER;
       Call_OpenSSL_version OPENSSL_VERSION_PLATFORM;
       Call_OpenSSL_version OPENSSL_VERSION_DIR;
       Call_SSL_library_init] /\
  List.length (filter is_cleanup (calls (trace (main Samples.init_fails None))))
    = 0%nat.
Proof. repeat split. Qed.

(** C5.  Test 5 never returns from [main], whatever [EVP_MD_CTX_new]
    answers, and its one result is a [Pass].  On a null context the line
    is the one about error handling and nothing is freed; on a context
    [h] the line is the other one and [h] is freed.  In a whole run,
    once block 5 is entered block 6 is entered as well. *)
Theorem error_handling_check (p : Provider) (conf : option string) :
  snd (test_5 p) = Next tt /\
  statuses (marks (trace (test_5 p))) = [Pass] /\
  (EVP_MD_CTX_new p 0 = None ->
   report (trace (test_5 p))
   = [{| section := 5; category := ErrorHandling; status := Pass;
         detail := Printf
           "   ✓ Error handling working (EVP_MD_CTX_new failed as expected)\n"
           [] |}] /\
   calls (trace (test_5 p))
   = [Call_ERR_load_crypto_strings; Call_ERR_load_SSL_strings;
      Call_EVP_MD_CTX_new None]) /\
  (forall h, EVP_MD_CTX_new p 0 = Some h ->
   report (trace (test_5 p))
   = [{| section := 5; category := ErrorHandling; status := Pass;
         detail := Printf "   ✓ EVP_MD_CTX operations successful\n" [] |}] /\
   calls (trace (test_5 p))
   = [Call_ERR_load_crypto_strings; Call_ERR_load_SSL_strings;
      Call_EVP_MD_CTX_new (Some h); Call_EVP_MD_CTX_free h] /\
   live (trace (test_5 p)) = []) /\
  (In 5%nat (sections (marks (trace (main p conf)))) ->
   In 6%nat (sections (marks (trace (main p conf))))).
Proof.
  split; [| split; [| split; [| split]]].
  - unfold test_5. cbv beta iota zeta delta [bind invoke printf return_ ret].
    destruct (EVP_MD_CTX_new p 0); reflexivity.
  - unfold test_5. cbv beta iota zeta delta [bind invoke printf return_ ret].
    destruct (EVP_MD_CTX_new p 0); reflexivity.
  - intros E. unfold test_5.
    cbv beta iota zeta delta [bind invoke printf return_ ret].
    rewrite E. split; reflexivity.
  - intros h E. unfold test_5.
    cbv beta iota zeta delta [bind invoke printf return_ ret].
    rewrite E. split; [reflexivity |]. split; [reflexivity |].
    unfold live. cbn. rewrite Pos.eqb_refl. reflexivity.
  - destruct (main_ends p conf)
      as [(_ & _ & Hsec & _) | (_ & _ & (k & Hsec & _ & Hfal) & _)];
      rewrite Hsec.
    + intros _. cbn. tauto.
    + intros H5. apply in_seq in H5. apply in_seq.
      assert (k <> 5%nat) by (intros ->; discriminate Hfal).
      lia.
Qed.

(** The first [EVP_MD_CTX_new] returns null and the run goes on to the
    end. *)
Lemma error_handling_check_witness :
  EVP_MD_CTX_new Samples.no_md_ctx 0 = None /\
  In 5%nat (sections (marks (trace (main Samples.no_md_ctx None)))) /\
  In 6%nat (sections (marks (trace (main Samples.no_md_ctx None)))) /\
  statuses (marks (trace (test_5 Samples.no_md_ctx))) = [Pass] /\
  exit_code (main Samples.no_md_ctx None) = 0.
Proof.
  assert (H5 : In 5%nat (sections (marks (trace (main Samples.no_md_ctx None)))))
    by (vm_compute; tauto).
  destruct (error_handling_check Samples.no_md_ctx None)
    as (_ & Hst & _ & _ & H56).
  split; [reflexivity |]. split; [exact H5 |]. split; [exact (H56 H5) |].
  split; [exact Hst | reflexivity].
Defined.

(** C6.  Test 9 never returns from [main] and none of its results is a
    [Fail]: each of the eight names gives [Pass] if a digest or cipher
    lookup succeeds and [Skipped] if not, and the summary line is a
    [Pass].  The count in the summary is the number of names for which
    a lookup succeeds; when all eight are there the line reads
    "8/8 algorithms available". *)
Theorem algorithm_availability (p : Provider) :
  snd (test_9 p) = Next tt /\
  marks (trace (test_9 p))
  = MSection 9
    :: map (fun name => MResult (if available p name then Pass else Skipped))
           algorithms
    ++ [MResult Pass] /\
  nofail (marks (trace (test_9 p))) = true /\
  In (Printf "   ✓ %d/%zu algorithms available\n"
        [AInt (Z.of_nat (List.length (available_names p))); ASize 8])
     (trace (test_9 p)) /\
  ((forall name, In name algorithms -> available p name = true) ->
   In (Printf "   ✓ %d/%zu algorithms available\n" [AInt 8; ASize 8])
      (trace (test_9 p)) /\
   render "   ✓ %d/%zu algorithms available\n" [AInt 8; ASize 8]
   = String.append "   ✓ 8/8 algorithms available" (String newline "")).
Proof.
  assert (Hin : In (Printf "   ✓ %d/%zu algorithms available\n"
                      [AInt (Z.of_nat (List.length (available_names p)));
                       ASize 8])
                   (trace (test_9 p))).
  { rewrite test_9_eq. cbn [trace fst].
    apply in_or_app. right. apply in_or_app. right. left. reflexivity. }
  assert (Hnext : snd (test_9 p) = Next tt)
    by (rewrite test_9_eq; reflexivity).
  pose proof (bo_verdict _ _ _ (test_9_ok p)) as Hv. rewrite Hnext in Hv.
  split; [exact Hnext |].
  split; [apply marks_test_9 |].
  split; [exact Hv |].
  split; [exact Hin |].
  intros Hall. split; [| vm_compute; reflexivity].
  assert (E : available_names p = algorithms).
  { unfold available_names. apply forallb_filter_id.
    apply forallb_forall. exact Hall. }
  rewrite E in Hin. exact Hin.
Qed.

(** All eight names are known: the summary reads 8/8. *)
Lemma algorithm_availability_witness :
  (forall name, In name algorithms ->
                available Samples.all_algorithms name = true) /\
  In (Printf "   ✓ %d/%zu algorithms available\n" [AInt 8; ASize 8])
     (trace (test_9 Samples.all_algorithms)) /\
  exit_code (main Samples.all_algorithms None) = 0.
Proof.
  assert (H : forall name, In name algorithms ->
                           available Samples.all_algorithms name = true).
  { apply forallb_forall. vm_compute. reflexivity. }
  destruct (algorithm_availability Samples.all_algorithms)
    as (_ & _ & _ & _ & Hall).
  split; [exact H |]. split; [exact (proj1 (Hall H)) | reflexivity].
Defined.

(** C7.  Two runs of the probe against providers that answer with the
    same success/failure indicators give reports with the same sequence
    of categories and statuses (and of block numbers), and the same exit
    status, whatever the values that come with the answers. *)
Theorem reports_agree (p q : Provider) (conf : option string) :
  same_indicators p q ->
  outline (report (trace (main p conf)))
  = outline (report (trace (main q conf))) /\
  map (fun r => (section r, status r)) (report (trace (main p conf)))
  = map (fun r => (section r, status r)) (report (trace (main q conf))) /\
  exit_code (main p conf) = exit_code (main q conf).
Proof.
  intros Hsame. destruct (main_sim p q conf Hsame) as [Hm Ho].
  split; [| split].
  - unfold report. rewrite !outline_report_from, Hm. reflexivity.
  - unfold report. rewrite !filed_report_from, Hm. reflexivity.
  - rewrite !exit_code_outcome, Ho. reflexivity.
Qed.

(** Two runs against the installed library: other random bytes and
    another context address, the same outline. *)
Lemma reports_agree_witness :
  same_indicators Samples.functional Samples.functional_again /\
  sample_bytes (trace (main Samples.functional None))
    = [222; 173; 190; 239; 1; 2; 3; 4] /\
  sample_bytes (trace (main Samples.functional_again None))
    = [202; 254; 186; 190; 8; 7; 6; 5] /\
  outline (report (trace (main Samples.functional None)))
  = outline (report (trace (main Samples.functional_again None))) /\
  exit_code (main Samples.functional None)
  = exit_code (main Samples.functional_again None).
Proof.
  assert (H : same_indicators Samples.functional Samples.functional_again).
  { unfold same_indicators.
    repeat match goal with |- _ /\ _ => split end; try reflexivity.
    intros [| k]; reflexivity. }
  destruct (reports_agree Samples.functional Samples.functional_again None H)
    as (Hout & _ & Hexit).
  split; [exact H |]. split; [reflexivity |]. split; [reflexivity |].
  split; [exact Hout | exact Hexit].
Defined.

(** C8.  The configuration path is only reported: test 10 never returns
    from [main]; with a path it prints the path, without one it prints
    that none is set; and two runs that differ in the path alone make
    the same library calls, enter the same blocks and exit with the same
    status. *)
Theorem config_path_is_informational (p : Provider)
    (conf conf' : option string) :
  snd (test_10 p conf) = Next tt /\
  In (match conf with
      | Some path => Printf "   ✓ OPENSSL_CONF: %s\n" [AStr path]
      | None => Printf "   - OPENSSL_CONF not set\n" []
      end) (trace (test_10 p conf)) /\
  exit_code (main p conf) = exit_code (main p conf') /\
  calls (trace (main p conf)) = calls (trace (main p conf')) /\
  sections (marks (trace (main p conf)))
  = sections (marks (trace (main p conf'))).
Proof.
  destruct (main_conf_sim p conf conf' calls calls_app
              (test_10_sim_calls p conf conf')) as [Hc Ho].
  destruct (main_conf_sim p conf conf' blocks_of blocks_of_app
              (test_10_sim_blocks p conf conf')) as [Hb _].
  split; [apply test_10_next |].
  split.
  { unfold test_10. cbv beta iota zeta delta [bind invoke printf return_ ret].
    destruct conf, (FIPS_mode p =? 1); cbn; tauto. }
  split; [rewrite !exit_code_outcome, Ho; reflexivity |].
  split; [exact Hc | exact Hb].
Qed.

End ProbeClaims.

(* ===================================================================== *)
(** * Part V. Further properties of the fixture arithmetic                *)
(* ===================================================================== *)

Section MathUtilsMore.
Import Int32 MathUtils MathUtilsCost.

Lemma wrap_add_l (x y : Z) : wrap (wrap x + y) = wrap (x + y).
Proof.
  apply wrap_eq_of_congruent.
  rewrite Zplus_mod, wrap_congruent, <- Zplus_mod. reflexivity.
Qed.

Lemma wrap_add_r (x y : Z) : wrap (x + wrap y) = wrap (x + y).
Proof. rewrite (Z.add_comm x), wrap_add_l. f_equal. lia. Qed.

Lemma wrap_mul_l (x y : Z) : wrap (wrap x * y) = wrap (x * y).
Proof.
  apply wrap_eq_of_congruent.
  rewrite Zmult_mod, wrap_congruent, <- Zmult_mod. reflexivity.
Qed.

Lemma wrap_mul_r (x y : Z) : wrap (x * wrap y) = wrap (x * y).
Proof. rewrite (Z.mul_comm x), wrap_mul_l. f_equal. lia. Qed.

(** X1.  On [int]s, [add] and [multiply] are associative, [multiply]
    distributes over [add], 0 and 1 are their units, [multiply] by 0
    gives 0 and [multiply] by -1 gives the inverse for [add]: overflow
    included, they are the operations of a commutative ring. *)
Theorem add_multiply_ring (a b c : Z) :
  in_range a -> in_range b -> in_range c ->
  add (add a b) c = add a (add b c) /\
  multiply (multiply a b) c = multiply a (multiply b c) /\
  multiply a (add b c) = add (multiply a b) (multiply a c) /\
  add a 0 = a /\
  multiply a 1 = a /\
  multiply a 0 = 0 /\
  add a (multiply a (-1)) = 0.
Proof.
  intros Ha _ _. unfold add, multiply.
  split; [rewrite wrap_add_l, wrap_add_r; f_equal; lia |].
  split; [rewrite wrap_mul_l, wrap_mul_r; f_equal; lia |].
  split; [rewrite wrap_mul_r, wrap_add_l, wrap_add_r; f_equal; lia |].
  split; [rewrite Z.add_0_r; apply wrap_in_range; exact Ha |].
  split; [rewrite Z.mul_1_r; apply wrap_in_range; exact Ha |].
  split; [rewrite Z.mul_0_r; reflexivity |].
  rewrite wrap_add_r. replace (a + a * -1) with 0 by lia. reflexivity.
Qed.

(** With sums and products that overflow on the way. *)
Lemma add_multiply_ring_witness :
  in_range INT_MAX /\ in_range 3 /\
  add (add INT_MAX INT_MAX) 3 = add INT_MAX (add INT_MAX 3) /\
  multiply INT_MAX (add INT_MAX 3)
  = add (multiply INT_MAX INT_MAX) (multiply INT_MAX 3) /\
  add INT_MAX (multiply INT_MAX (-1)) = 0.
Proof.
  assert (H1 : in_range INT_MAX) by (vm_compute; split; discriminate).
  assert (H3 : in_range 3) by (vm_compute; split; discriminate).
  destruct (add_multiply_ring INT_MAX INT_MAX 3 H1 H1 H3)
    as (Hassoc & _ & Hdist & _ & _ & _ & Hinv).
  split; [exact H1 |]. split; [exact H3 |]. split; [exact Hassoc |].
  split; [exact Hdist | exact Hinv].
Defined.

(** X2.  When the sum of two [int]s leaves the [int] range, [add] is off
    by exactly 2^32 and the result has the wrong sign: above [INT_MAX]
    it is negative, below [INT_MIN] it is non-negative.  [add] and
    [multiply] return the exact result only when that result is in
    range. *)
Theorem add_overflow_edges (a b : Z) :
  in_range a -> in_range b ->
  (INT_MAX < a + b -> add a b = a + b - modulus /\ add a b < 0) /\
  (a + b < INT_MIN -> add a b = a + b + modulus /\ 0 <= add a b) /\
  (add a b = a + b <-> in_range (a + b)) /\
  (multiply a b = a * b <-> in_range (a * b)).
Proof.
  unfold in_range, INT_MIN, INT_MAX, modulus. intros Ha Hb.
  assert (Hhi : INT_MAX < a + b -> add a b = a + b - modulus).
  { unfold INT_MAX, add, wrap, modulus. intros H.
    replace (a + b + 2 ^ 31) with ((a + b + 2 ^ 31 - 2 ^ 32) + 1 * 2 ^ 32) by lia.
    rewrite Z.mod_add by lia. rewrite Z.mod_small; lia. }
  assert (Hlo : a + b < INT_MIN -> add a b = a + b + modulus).
  { unfold INT_MIN, add, wrap, modulus. intros H.
    replace (a + b + 2 ^ 31) with ((a + b + 2 ^ 31 + 2 ^ 32) + (-1) * 2 ^ 32) by lia.
    rewrite Z.mod_add by lia. rewrite Z.mod_small; lia. }
  unfold INT_MIN, INT_MAX, modulus in Hhi, Hlo.
  split; [intros H; rewrite (Hhi H); lia |].
  split; [intros H; rewrite (Hlo H); lia |].
  split; split.
  - intros E. pose proof (wrap_range (a + b)) as R.
    unfold in_range, INT_MIN, INT_MAX in R. fold (add a b) in R. lia.
  - intros H. apply wrap_in_range. unfold in_range, INT_MIN, INT_MAX. lia.
  - intros E. pose proof (wrap_range (a * b)) as R.
    unfold in_range, INT_MIN, INT_MAX in R. fold (multiply a b) in R. lia.
  - intros H. apply wrap_in_range. unfold in_range, INT_MIN, INT_MAX. lia.
Qed.

(** [INT_MAX + 1] is [INT_MIN]. *)
Lemma add_overflow_edges_witness :
  in_range INT_MAX /\ in_range 1 /\ INT_MAX < INT_MAX + 1 /\
  add INT_MAX 1 = INT_MIN /\ add INT_MAX 1 < 0.
Proof.
  assert (H1 : in_range INT_MAX) by (vm_compute; split; discriminate).
  assert (H2 : in_range 1) by (vm_compute; split; discriminate).
  assert (H3 : INT_MAX < INT_MAX + 1) by lia.
  destruct (add_overflow_edges INT_MAX 1 H1 H2) as (Hhi & _).
  destruct (Hhi H3) as (E & Hneg).
  split; [exact H1 |]. split; [exact H2 |]. split; [exact H3 |].
  split; [rewrite E; reflexivity | exact Hneg].
Defined.

(** X3.  Between 0 and 46 [fibonacci] is non-negative and monotone and
    stays below [INT_MAX]; from 2 on it is strictly increasing. *)
Theorem fibonacci_monotone (m n : Z) :
  0 <= m -> m <= n -> n <= 46 ->
  0 <= fibonacci m /\
  fibonacci m <= fibonacci n /\
  fibonacci n <= 1836311903 /\
  (2 <= m -> m < n -> fibonacci m < fibonacci n).
Proof.
  intros H0 Hmn Hn.
  assert (Hfib : forall k, 0 <= k <= 46 -> fibonacci k = Fib (Z.to_nat k)).
  { intros k Hk. rewrite fibonacci_nonneg_wrap_Fib by (unfold INT_MAX; lia).
    apply wrap_in_range.
    assert (Hk' : (Z.to_nat k <= 46)%nat) by lia.
    pose proof (Fib_mono _ _ Hk'). pose proof (Fib_S_le (Z.to_nat k)).
    assert (E : Fib 46 = 1836311903) by (vm_compute; reflexivity).
    unfold in_range, INT_MIN, INT_MAX. lia. }
  rewrite (Hfib m), (Hfib n) by lia.
  split; [apply (Fib_S_le (Z.to_nat m)) |].
  split; [apply Fib_mono; lia |].
  split.
  { assert (E : Fib 46 = 1836311903) by (vm_compute; reflexivity).
    rewrite <- E. apply Fib_mono. lia. }
  intros H2 Hlt.
  assert (Hstep : forall k, (2 <= k)%nat -> Fib k < Fib (S k)).
  { intros k Hk. destruct k as [| [| k]]; try lia.
    rewrite (Fib_SS (S k)).
    assert (0 < Fib (S k)); [| lia].
    assert (Fib 1 <= Fib (S k)) by (apply Fib_mono; lia).
    change (Fib 1) with 1 in *. lia. }
  apply Z.lt_le_trans with (Fib (S (Z.to_nat m))).
  - apply Hstep. lia.
  - apply Fib_mono. lia.
Qed.

(** Two of the values [main.c] prints. *)
Lemma fibonacci_monotone_witness :
  0 <= 8 /\ 8 <= 9 /\ 9 <= 46 /\ fibonacci 8 < fibonacci 9.
Proof.
  assert (H0 : 0 <= 8) by lia. assert (H1 : 8 <= 9) by lia.
  assert (H2 : 9 <= 46) by lia.
  destruct (fibonacci_monotone 8 9 H0 H1 H2) as (_ & _ & _ & Hlt).
  split; [exact H0 |]. split; [exact H1 |]. split; [exact H2 |].
  apply Hlt; lia.
Defined.

Lemma fibonacci_counted_unfold (n : Z) :
  fibonacci_counted n =
    if n <=? 1 then (n, 1)
    else (wrap (fst (fibonacci_counted (wrap (n - 1)))
                + fst (fibonacci_counted (wrap (n - 2)))),
          1 + snd (fibonacci_counted (wrap (n - 1)))
            + snd (fibonacci_counted (wrap (n - 2)))).
Proof.
  rewrite fibonacci_counted_equation_1.
  destruct (Z_le_gt_dec n 1) as [Hle | Hgt]; cbn.
  - destruct (Z.leb_spec n 1); [reflexivity | lia].
  - destruct (Z.leb_spec n 1); [lia | reflexivity].
Qed.

(** The counted recursion computes what [fibonacci] computes. *)
Lemma fibonacci_counted_value (n : Z) : fst (fibonacci_counted n) = fibonacci n.
Proof.
  funelim (fibonacci n).
  - rewrite fibonacci_counted_unfold.
    destruct (Z.leb_spec n 1); [reflexivity | lia].
  - rewrite fibonacci_counted_unfold.
    destruct (Z.leb_spec n 1); [lia |]. cbn [fst].
    repeat match goal with
           | IH : fst (fibonacci_counted _) = fibonacci _ |- _ => rewrite IH; clear IH
           end.
    reflexivity.
Qed.

Lemma fibonacci_calls_Fib (k : nat) :
  Z.of_nat k <= INT_MAX ->
  snd (fibonacci_counted (Z.of_nat k)) = 2 * Fib (S k) - 1.
Proof.
  induction k as [k IH] using (well_founded_induction lt_wf). intros Hk.
  rewrite fibonacci_counted_unfold.
  destruct (Z.leb_spec (Z.of_nat k) 1) as [Hle | Hgt].
  - destruct k as [| [| k]]; try lia; reflexivity.
  - destruct k as [| [| k]]; try lia.
    unfold INT_MAX in Hk. cbn [snd].
    rewrite (wrap_in_range (Z.of_nat (S (S k)) - 1)),
            (wrap_in_range (Z.of_nat (S (S k)) - 2))
      by (unfold in_range, INT_MIN, INT_MAX; lia).
    replace (Z.of_nat (S (S k)) - 1) with (Z.of_nat (S k)) by lia.
    replace (Z.of_nat (S (S k)) - 2) with (Z.of_nat k) by lia.
    rewrite (IH (S k)), (IH k) by (unfold INT_MAX; lia).
    rewrite (Fib_SS (S k)). lia.
Qed.

(** X4.  Evaluating [fibonacci n] enters the function once for [n <= 1]
    and [2 * F(n+1) - 1] times for every non-negative [int] [n]: the
    number of calls grows like the Fibonacci numbers themselves. *)
Theorem fibonacci_call_count (n : Z) :
  in_range n ->
  fst (fibonacci_counted n) = fibonacci n /\
  (n <= 1 -> snd (fibonacci_counted n) = 1) /\
  (0 <= n -> snd (fibonacci_counted n) = 2 * Fib (S (Z.to_nat n)) - 1).
Proof.
  intros Hn. split; [apply fibonacci_counted_value |]. split.
  - intros H. rewrite fibonacci_counted_unfold.
    destruct (Z.leb_spec n 1); [reflexivity | lia].
  - intros H. rewrite <- (Z2Nat.id n) at 1 by lia.
    apply fibonacci_calls_Fib. unfold in_range in Hn. rewrite Z2Nat.id; lia.
Qed.

(** The last call of [main.c], [fibonacci(9)], takes 109 calls; the
    largest argument without overflow, 46, would take 5942430145. *)
Lemma fibonacci_call_count_witness :
  in_range 9 /\ in_range 46 /\
  snd (fibonacci_counted 9) = 109 /\
  snd (fibonacci_counted 46) = 5942430145.
Proof.
  assert (H9 : in_range 9) by (vm_compute; split; discriminate).
  assert (H46 : in_range 46) by (vm_compute; split; discriminate).
  destruct (fibonacci_call_count 9 H9) as (_ & _ & E9).
  destruct (fibonacci_call_count 46 H46) as (_ & _ & E46).
  split; [exact H9 |]. split; [exact H46 |]. split.
  - rewrite E9 by lia. vm_compute. reflexivity.
  - rewrite E46 by lia. vm_compute. reflexivity.
Defined.

End MathUtilsMore.

(* ===================================================================== *)
(** * Part VI. Further properties of the probe                            *)
(* ===================================================================== *)

Section RunsFacts.
Import Int32 TestOpenssl Runs.
Local Open Scope string_scope.
Local Open Scope list_scope.
Local Open Scope Z_scope.
Local Open Scope probe_scope.

(** ** [main] runs its blocks in order *)

Lemma seq_blocks_trace (bs : list (M unit)) (k : M unit) :
  trace (seq_blocks bs k)
  = List.concat (map trace (ran bs)) ++ (if completed bs then trace k else []).
Proof.
  induction bs as [| [t [[] | c]] bs IH]; cbn [seq_blocks fold_right].
  - reflexivity.
  - fold (seq_blocks bs k). rewrite bind_next. cbn [trace fst].
    fold (trace (seq_blocks bs k)). rewrite IH.
    cbn [ran runs_on snd completed forallb map List.concat trace fst andb].
    fold (completed bs). rewrite app_assoc. reflexivity.
  - rewrite bind_return.
    cbn [ran runs_on snd completed forallb map List.concat trace fst andb].
    rewrite !app_nil_r. reflexivity.
Qed.

Lemma main_trace_ran (p : Provider) (conf : option string) :
  trace (main p conf)
  = opening ++ List.concat (map trace (ran (blocks p conf)))
    ++ (if completed (blocks p conf) then trace closing else []).
Proof.
  rewrite <- seq_blocks_trace.
  change (main p conf)
    with (printf "OpenSSL Test Package - Validating OpenSSL Installation\n" [] ;;
          printf "======================================================\n\n" [] ;;
          seq_blocks (blocks p conf) closing).
  unfold printf. rewrite !bind_next. reflexivity.
Qed.

Section Blocks.
Variable p : Provider.
Variable conf : option string.

Lemma runs_on_outcome (b : M unit) (ok : bool) :
  outcome_code (snd b) = (if ok then None else Some 1) -> runs_on b = ok.
Proof. unfold runs_on. destruct (snd b), ok; cbn; congruence. Qed.

Lemma runs_on_blocks :
  map runs_on (blocks p conf)
  = [ true; initialised p; is_some (EVP_sha256 p);
      fst (RAND_bytes p sizeof_random_bytes) =? 1; true; bio_ok p;
      is_some (SSL_CTX_new p); is_some (EVP_MD_CTX_new p 1);
      true; true; true ].
Proof.
  unfold blocks. cbn [map].
  rewrite (runs_on_outcome _ true (test_1_outcome p)).
  rewrite (runs_on_outcome _ _ (test_2_outcome p)).
  rewrite (runs_on_outcome _ _ (test_3_outcome p)).
  rewrite (runs_on_outcome _ _ (test_4_outcome p)).
  rewrite (runs_on_outcome _ true (test_5_outcome p)).
  rewrite (runs_on_outcome _ _ (test_6_outcome p)).
  rewrite (runs_on_outcome _ _ (test_7_outcome p)).
  rewrite (runs_on_outcome _ _ (test_8_outcome p)).
  rewrite (runs_on_outcome _ true (test_9_outcome p)).
  rewrite (runs_on_outcome _ true (test_10_outcome p conf)).
  reflexivity.
Qed.

Ltac split_runs_on H :=
  pose proof runs_on_blocks as H; unfold blocks in H; cbn [map] in H;
  injection H; clear H; intros.

Lemma ran_blocks : ran (blocks p conf) = firstn (stop_block p) (blocks p conf).
Proof.
  split_runs_on H. unfold blocks, stop_block, initialised in *. cbn [ran].
  repeat match goal with E : runs_on _ = _ |- _ => rewrite E; clear E end.
  destruct ((SSL_library_init p =? 1) && (SSL_load_error_strings p =? 1)
            && (OpenSSL_add_all_algorithms p =? 1))%bool; [| reflexivity].
  destruct (is_some (EVP_sha256 p)); [| reflexivity].
  destruct (fst (RAND_bytes p sizeof_random_bytes) =? 1); [| reflexivity].
  destruct (bio_ok p); [| reflexivity].
  destruct (is_some (SSL_CTX_new p)); [| reflexivity].
  destruct (is_some (EVP_MD_CTX_new p 1)); reflexivity.
Qed.

Lemma completed_blocks : completed (blocks p conf) = required_ok p.
Proof.
  split_runs_on H. unfold blocks, completed, required_ok, initialised in *.
  cbn [forallb].
  repeat match goal with E : runs_on _ = _ |- _ => rewrite E; clear E end.
  destruct ((SSL_library_init p =? 1) && (SSL_load_error_strings p =? 1)
            && (OpenSSL_add_all_algorithms p =? 1))%bool; [| reflexivity].
  destruct (is_some (EVP_sha256 p)); [| reflexivity].
  destruct (fst (RAND_bytes p sizeof_random_bytes) =? 1); [| reflexivity].
  destruct (bio_ok p); [| reflexivity].
  destruct (is_some (SSL_CTX_new p)); [| reflexivity].
  destruct (is_some (EVP_MD_CTX_new p 1)); reflexivity.
Qed.

Lemma stop_block_cases :
  In (stop_block p) [2; 3; 4; 6; 7; 8; 11]%nat /\
  (stop_block p = 11%nat <-> required_ok p = true).
Proof.
  unfold stop_block, required_ok.
  destruct ((SSL_library_init p =? 1) && (SSL_load_error_strings p =? 1)
            && (OpenSSL_add_all_algorithms p =? 1))%bool;
    [| cbn; intuition congruence].
  destruct (is_some (EVP_sha256 p)); [| cbn; intuition congruence].
  destruct (fst (RAND_bytes p sizeof_random_bytes) =? 1);
    [| cbn; intuition congruence].
  destruct (bio_ok p); [| cbn; intuition congruence].
  destruct (is_some (SSL_CTX_new p)); [| cbn; intuition congruence].
  destruct (is_some (EVP_MD_CTX_new p 1)); cbn; intuition congruence.
Qed.

(** The events of a run: the opening lines, the blocks up to the one in
    which the run ends, and the closing lines if it ends in the last. *)
Lemma main_trace :
  trace (main p conf)
  = opening
    ++ List.concat (map trace (firstn (stop_block p) (blocks p conf)))
    ++ (if required_ok p then trace closing else []).
Proof. rewrite main_trace_ran, ran_blocks, completed_blocks. reflexivity. Qed.

Lemma obs_concat {X} (obs : list Event -> list X) (ts : list (list Event)) :
  obs [] = [] ->
  (forall t1 t2, obs (t1 ++ t2) = obs t1 ++ obs t2) ->
  obs (List.concat ts) = List.concat (map obs ts).
Proof.
  intros Hnil Happ. induction ts as [| t ts IH]; cbn [List.concat map];
    [exact Hnil |].
  rewrite Happ, IH. reflexivity.
Qed.

(** The same for every observation of the events that goes over
    concatenation. *)
Lemma main_obs {X} (obs : list Event -> list X) :
  obs [] = [] ->
  (forall t1 t2, obs (t1 ++ t2) = obs t1 ++ obs t2) ->
  obs (trace (main p conf))
  = obs opening
    ++ List.concat (firstn (stop_block p)
                      (map (fun b => obs (trace b)) (blocks p conf)))
    ++ (if required_ok p then obs (trace closing) else []).
Proof.
  intros Hnil Happ.
  rewrite main_trace, !Happ, (obs_concat obs _ Hnil Happ), map_map, <- firstn_map.
  destruct (required_ok p); [reflexivity | rewrite Hnil; reflexivity].
Qed.

(** Case analysis on the answers a block looks at. *)
Ltac answers :=
  cbv beta iota zeta delta
    [test_1 test_2 test_3 test_4 test_5 test_6 test_7 test_8 test_10 test_11
     bind invoke printf return_ ret for_each seq];
  repeat match goal with
    | |- context [RAND_bytes ?q ?n] =>
        destruct (RAND_bytes q n) as [? ?]; cbn [fst snd]
    | |- context [if ?c then _ else _] =>
        lazymatch c with
        | (_ =? 1) => destruct c
        | (_ >? 0) => destruct c
        end
    | |- context [match ?x with Some _ => _ | None => _ end] =>
        lazymatch x with
        | EVP_sha256 _ => destruct x
        | EVP_MD_CTX_new _ _ => destruct x
        | BIO_new _ => destruct x
        | SSL_CTX_new _ => destruct x
        | _ => is_var x; destruct x
        end
    end.

(** One block at a time. *)
Ltac per_block tac :=
  repeat (apply (f_equal2 (@cons _)); [solve [tac] |]); try reflexivity.

Lemma blocks_sections :
  map (fun b => blocks_of (trace b)) (blocks p conf)
  = map (fun k => [k]) (List.seq 1 11).
Proof.
  unfold blocks, blocks_of. cbn [map List.seq].
  rewrite (bo_sections _ _ _ (test_1_ok p)), (bo_sections _ _ _ (test_2_ok p)),
    (bo_sections _ _ _ (test_3_ok p)), (bo_sections _ _ _ (test_4_ok p)),
    (bo_sections _ _ _ (test_5_ok p)), (bo_sections _ _ _ (test_6_ok p)),
    (bo_sections _ _ _ (test_7_ok p)), (bo_sections _ _ _ (test_8_ok p)),
    (bo_sections _ _ _ (test_9_ok p)), (bo_sections _ _ _ (test_10_ok p conf)).
  reflexivity.
Qed.

(** X5.  The blocks a run enters are blocks 1 to [k], where [k] is the
    block of the first required answer that is not a success (2 for the
    three initialisation calls, 3 for [EVP_sha256], 4 for [RAND_bytes],
    6 for [BIO_new] and [BIO_write], 7 for [SSL_CTX_new], 8 for the
    second [EVP_MD_CTX_new]) and 11 if there is none; the process exits
    with 0 exactly in the latter case. *)
Theorem run_ends_in_stop_block :
  blocks_of (trace (main p conf)) = List.seq 1 (stop_block p) /\
  In (stop_block p) [2; 3; 4; 6; 7; 8; 11]%nat /\
  (exit_code (main p conf) = 0 <-> stop_block p = 11%nat) /\
  (exit_code (main p conf) = 1 <-> stop_block p <> 11%nat).
Proof.
  destruct stop_block_cases as (Hin & H11).
  split; [| split; [exact Hin |]].
  - rewrite (main_obs blocks_of eq_refl blocks_of_app), blocks_sections.
    assert (Hc : blocks_of (trace closing) = []) by (vm_compute; reflexivity).
    rewrite Hc. cbn in Hin.
    destruct (required_ok p);
      decompose [or] Hin; try contradiction;
      match goal with E : _ = stop_block p |- _ => rewrite <- E end;
      reflexivity.
  - rewrite exit_code_required.
    destruct (required_ok p); split; split; intros H;
      try discriminate; try reflexivity;
      try (apply H11; reflexivity);
      try (apply H11 in H; discriminate H).
    + exfalso. apply H. apply H11. reflexivity.
    + intros E. apply H11 in E. discriminate E.
Qed.

(** ** Test 9 under an observation *)

Lemma test_9_obs {X} (obs : list Event -> list X) :
  obs [] = [] ->
  (forall t1 t2, obs (t1 ++ t2) = obs t1 ++ obs t2) ->
  (forall i, obs (algorithm_events p i) = []) ->
  obs (trace (test_9 p))
  = obs [Printf "9. Algorithm Availability Test:\n" []]
    ++ obs [Printf "   ✓ %d/%zu algorithms available\n"
              [AInt (Z.of_nat (List.length (available_names p)));
               ASize (Z.of_nat algorithms_len)];
            Printf "\n" []].
Proof.
  intros Hnil Happ Hq. rewrite test_9_eq. cbn [trace fst].
  rewrite !Happ. f_equal.
  assert (E : forall l, obs (flat_map (algorithm_events p) l) = []).
  { induction l as [| i l IH]; cbn [flat_map]; [exact Hnil |].
    rewrite Happ, Hq, IH. reflexivity. }
  rewrite E. reflexivity.
Qed.

Ltac algorithm_cases :=
  intros i; unfold algorithm_events, lookup_calls, availability_line;
  generalize (nth i algorithms ""); intros name;
  destruct (is_some (EVP_get_digestbyname p name)), (available p name);
  reflexivity.

(** ** The success banner *)

Lemma banners_app (t1 t2 : list Event) : banners (t1 ++ t2) = banners t1 ++ banners t2.
Proof. apply filter_app. Qed.

Lemma blocks_banners :
  map (fun b => banners (trace b)) (blocks p conf) = repeat [] 11.
Proof.
  unfold blocks. cbn [map repeat].
  rewrite (test_9_obs banners eq_refl banners_app) by algorithm_cases.
  per_block ltac:(answers; vm_compute; reflexivity).
Qed.

Lemma is_success_banner_iff (e : Event) :
  is_success_banner e = true <-> e = success_banner.
Proof.
  unfold is_success_banner, success_banner. split.
  - destruct e as [c | fmt [| a args]]; try discriminate.
    intros H. apply String.eqb_eq in H. rewrite H. reflexivity.
  - intros ->. reflexivity.
Qed.

Lemma concat_firstn_nil {A} (n m : nat) :
  List.concat (firstn n (repeat (@nil A) m)) = [].
Proof.
  revert n. induction m as [| m IH]; intros [| n]; cbn; auto.
Qed.

(** X6.  The line "All OpenSSL tests passed successfully!" is printed
    on the runs that exit with status 0 and on no other run, and then
    once. *)
Theorem success_banner_iff_exit_0 :
  (In success_banner (trace (main p conf)) <-> exit_code (main p conf) = 0) /\
  banners (trace (main p conf))
  = if exit_code (main p conf) =? 0 then [success_banner] else [].
Proof.
  assert (E : banners (trace (main p conf))
              = if required_ok p then [success_banner] else []).
  { rewrite (main_obs banners eq_refl banners_app), blocks_banners,
      concat_firstn_nil.
    destruct (required_ok p); reflexivity. }
  assert (Hin : In success_banner (trace (main p conf))
                <-> In success_banner (banners (trace (main p conf)))).
  { unfold banners. rewrite filter_In, is_success_banner_iff. tauto. }
  rewrite Hin, E, exit_code_required.
  destruct (required_ok p); cbn; split; try reflexivity; split; intros H;
    try discriminate; try contradiction; auto.
Qed.

(** ** Initialisation comes first *)

Lemma early_calls_before_init :
  forallb before_init (calls (trace (test_1 p)) ++ calls (trace (test_2 p)))
  = true.
Proof. answers; reflexivity. Qed.

(** X7.  A call other than a version query or one of the three
    initialisation calls is made only when [SSL_library_init],
    [SSL_load_error_strings] and [OpenSSL_add_all_algorithms] have all
    returned 1. *)
Theorem initialised_before_use (c : Call) :
  In c (calls (trace (main p conf))) ->
  before_init c = false ->
  SSL_library_init p = 1 /\
  SSL_load_error_strings p = 1 /\
  OpenSSL_add_all_algorithms p = 1.
Proof.
  intros Hin Hc.
  destruct (initialised p) eqn:Einit.
  - unfold initialised in Einit.
    apply andb_prop in Einit as [Einit E3].
    apply andb_prop in Einit as [E1 E2].
    apply Z.eqb_eq in E1, E2, E3. auto.
  - exfalso.
    assert (Estop : stop_block p = 2%nat).
    { unfold stop_block. fold (initialised p). rewrite Einit. reflexivity. }
    assert (Ereq : required_ok p = false).
    { unfold required_ok. fold (initialised p). rewrite Einit. reflexivity. }
    rewrite (main_obs calls eq_refl calls_app), Estop, Ereq in Hin.
    unfold blocks in Hin. cbn [map firstn List.concat opening calls app] in Hin.
    rewrite !app_nil_r in Hin.
    pose proof early_calls_before_init as Hall.
    rewrite forallb_forall in Hall. specialize (Hall c Hin). congruence.
Qed.

(** ** Resources *)

Ltac close_live :=
  cbn [trace fst snd app calls live_from acquires releases release Resource_eqb];
  rewrite ?Pos.eqb_refl; reflexivity.

Lemma algorithm_events_live (l : list nat) (held : list Resource) :
  live_from held (calls (flat_map (algorithm_events p) l)) = held.
Proof. exact (proj2 (proj2 (proj2 (quiet_flat_map p l))) held). Qed.

Lemma test_9_live (held : list Resource) :
  live_from held (calls (trace (test_9 p))) = held.
Proof.
  rewrite test_9_eq. cbn [trace fst].
  rewrite !calls_app, !live_from_app, algorithm_events_live. reflexivity.
Qed.

(** What each block leaves held, whether it runs to its end or not. *)
Lemma blocks_live (held : list Resource) :
  map (fun b => live_from held (calls (trace b))) (blocks p conf)
  = [ held; held; held; held; held; held_after_test_6 p held;
      held; held; held; held; held ].
Proof.
  unfold blocks, held_after_test_6. cbn [map]. rewrite test_9_live.
  per_block ltac:(answers; close_live).
Qed.

Ltac split_live H :=
  let Hl := fresh in
  assert (Hl := fun held => blocks_live held);
  unfold blocks in Hl; cbn [map] in Hl;
  assert (H : (forall held, live_from held (calls (trace (test_1 p))) = held) /\
              (forall held, live_from held (calls (trace (test_2 p))) = held) /\
              (forall held, live_from held (calls (trace (test_3 p))) = held) /\
              (forall held, live_from held (calls (trace (test_4 p))) = held) /\
              (forall held, live_from held (calls (trace (test_5 p))) = held) /\
              (forall held, live_from held (calls (trace (test_6 p)))
                            = held_after_test_6 p held) /\
              (forall held, live_from held (calls (trace (test_7 p))) = held) /\
              (forall held, live_from held (calls (trace (test_8 p))) = held) /\
              (forall held, live_from held (calls (trace (test_9 p))) = held) /\
              (forall held, live_from held (calls (trace (test_10 p conf))) = held) /\
              (forall held, live_from held (calls (trace test_11)) = held))
    by (repeat split; intros held; specialize (Hl held);
        injection Hl; intros; assumption);
  clear Hl.

Lemma stop_block_bio :
  (stop_block p = 6%nat -> bio_ok p = false) /\
  ((6 < stop_block p)%nat -> bio_ok p = true).
Proof.
  unfold stop_block.
  destruct (negb _); [split; [discriminate | lia] |].
  destruct (negb _); [split; [discriminate | lia] |].
  destruct (negb _); [split; [discriminate | lia] |].
  destruct (bio_ok p); cbn [negb]; [| split; [reflexivity | lia]].
  split; [| reflexivity].
  destruct (negb _); [discriminate |]. destruct (negb _); discriminate.
Qed.

(** X8.  When the process returns, a provider resource is still held
    only if the run ended in test 6 with a BIO in hand, that is, if
    [BIO_new] succeeded and [BIO_write] failed; what is held then is that
    BIO.  No SSL context and no digest context is ever left behind. *)
Theorem held_at_exit :
  live (trace (main p conf))
  = match BIO_new p with
    | Some bio => if (stop_block p =? 6)%nat then [RBio bio] else []
    | None => []
    end.
Proof.
  split_live H.
  destruct H as (L1 & L2 & L3 & L4 & L5 & L6 & L7 & L8 & L9 & L10 & L11).
  destruct stop_block_cases as (Hin & _).
  destruct stop_block_bio as (Hbio6 & Hbio7).
  unfold live. rewrite main_trace, !calls_app, !live_from_app.
  assert (Hclose : forall held,
             live_from held (calls (if required_ok p then trace closing else []))
             = held) by (intros held; destruct (required_ok p); reflexivity).
  rewrite Hclose. cbn [opening calls live_from]. unfold blocks.
  cbn in Hin. decompose [or] Hin; try contradiction;
    match goal with E : _ = stop_block p |- _ =>
      rewrite <- E in *; clear E end;
    cbn [firstn map List.concat Nat.eqb];
    rewrite ?app_nil_r, ?calls_app, ?live_from_app,
      ?L1, ?L2, ?L3, ?L4, ?L5, ?L6, ?L7, ?L8, ?L9, ?L10, ?L11;
    try (destruct (BIO_new p); reflexivity).
  - (* the run ends in test 6 *)
    specialize (Hbio6 eq_refl). unfold bio_ok in Hbio6.
    unfold held_after_test_6.
    destruct (BIO_new p) as [bio |]; [rewrite Hbio6 |]; reflexivity.
  - specialize (Hbio7 ltac:(lia)). unfold bio_ok in Hbio7.
    unfold held_after_test_6.
    destruct (BIO_new p) as [bio |]; [rewrite Hbio7 |]; reflexivity.
  - specialize (Hbio7 ltac:(lia)). unfold bio_ok in Hbio7.
    unfold held_after_test_6.
    destruct (BIO_new p) as [bio |]; [rewrite Hbio7 |]; reflexivity.
  - specialize (Hbio7 ltac:(lia)). unfold bio_ok in Hbio7.
    unfold held_after_test_6.
    destruct (BIO_new p) as [bio |]; [rewrite Hbio7 |]; reflexivity.
Qed.

Lemma disciplined_app (held : list Resource) (c1 c2 : list Call) :
  disciplined_from held (c1 ++ c2)
  = (disciplined_from held c1 && disciplined_from (live_from held c1) c2)%bool.
Proof.
  revert held. induction c1 as [| c c1 IH]; intros held; [reflexivity |].
  cbn [app disciplined_from live_from].
  destruct (acquires c) as [r |].
  - destruct held; [apply IH | reflexivity].
  - destruct (releases c) as [r |]; rewrite IH, andb_assoc; reflexivity.
Qed.

Lemma algorithm_events_disciplined (l : list nat) (held : list Resource) :
  disciplined_from held (calls (flat_map (algorithm_events p) l)) = true.
Proof.
  induction l as [| i l IH]; [reflexivity |].
  cbn [flat_map]. rewrite calls_app, disciplined_app.
  rewrite (proj2 (proj2 (proj2 (quiet_algorithm_events p i))) held), IH.
  unfold algorithm_events, lookup_calls, availability_line.
  destruct (is_some (EVP_get_digestbyname p (nth i algorithms "")));
    reflexivity.
Qed.

Lemma test_9_disciplined (held : list Resource) :
  disciplined_from held (calls (trace (test_9 p))) = true.
Proof.
  rewrite test_9_eq. cbn [trace fst].
  rewrite !calls_app, !disciplined_app, algorithm_events_disciplined.
  reflexivity.
Qed.

Ltac close_disciplined :=
  cbn [trace fst snd app calls disciplined_from acquires releases uses
       release holds existsb Resource_eqb andb orb];
  rewrite ?Pos.eqb_refl; reflexivity.

Lemma blocks_disciplined :
  map (fun b => disciplined_from [] (calls (trace b))) (blocks p conf)
  = repeat true 11.
Proof.
  unfold blocks. cbn [map repeat]. rewrite test_9_disciplined.
  per_block ltac:(answers; close_disciplined).
Qed.

Lemma held_after_test_6_ok (held : list Resource) :
  bio_ok p = true -> held_after_test_6 p held = held.
Proof.
  unfold bio_ok, held_after_test_6.
  destruct (BIO_new p); [intros -> |]; reflexivity.
Qed.

(** What [disciplined_from] refuses: a second acquisition while a
    resource is held, a use after the free, a second free. *)
Lemma disciplined_from_refuses (h h' : Handle) :
  disciplined_from [] [Call_BIO_new (Some h); Call_SSL_CTX_new (Some h')] = false /\
  disciplined_from []
    [Call_BIO_new (Some h); Call_BIO_free h; Call_BIO_write h 15] = false /\
  disciplined_from []
    [Call_BIO_new (Some h); Call_BIO_free h; Call_BIO_free h] = false.
Proof. cbn. rewrite Pos.eqb_refl. cbn. auto. Qed.

(** X9.  At every point of every run at most one provider resource is
    held; [BIO_write], [SSL_CTX_get_ssl_method] and the three [free]
    calls are only ever applied to a handle that is held at that point:
    no handle is used after it was freed and none is freed twice. *)
Theorem handles_disciplined :
  disciplined_from [] (calls (trace (main p conf))) = true.
Proof.
  split_live H.
  destruct H as (L1 & L2 & L3 & L4 & L5 & L6 & L7 & L8 & L9 & L10 & L11).
  pose proof blocks_disciplined as HD. unfold blocks in HD.
  cbn [map repeat] in HD. injection HD; clear HD; intros.
  destruct stop_block_cases as (Hin & _).
  destruct stop_block_bio as (_ & Hbio7).
  rewrite main_trace, !calls_app.
  assert (Hclose : calls (if required_ok p then trace closing else []) = [])
    by (destruct (required_ok p); reflexivity).
  rewrite Hclose, app_nil_r. cbn [opening calls app]. unfold blocks.
  cbn in Hin. decompose [or] Hin; try contradiction;
    match goal with E : _ = stop_block p |- _ =>
      rewrite <- E in *; clear E end;
    try (assert (L6' : forall held,
                   live_from held (calls (trace (test_6 p))) = held)
           by (intros held; rewrite L6; apply held_after_test_6_ok;
               apply Hbio7; lia));
    cbn [firstn map List.concat];
    rewrite ?app_nil_r, ?calls_app, ?disciplined_app,
      ?L1, ?L2, ?L3, ?L4, ?L5;
    try rewrite !L6';
    rewrite ?L7, ?L8, ?L9, ?L10, ?L11;
    repeat match goal with E : disciplined_from [] _ = true |- _ =>
             rewrite E; clear E end;
    reflexivity.
Qed.

(** ** The sample of random bytes *)

Lemma sample_bytes_app (t1 t2 : list Event) :
  sample_bytes (t1 ++ t2) = sample_bytes t1 ++ sample_bytes t2.
Proof.
  induction t1 as [| e t1 IH]; [reflexivity |].
  destruct e as [c | fmt [| [z | z | s | b] [| a args]]];
    cbn [app sample_bytes]; rewrite IH; reflexivity.
Qed.

Lemma blocks_sample_bytes :
  map (fun b => sample_bytes (trace b)) (blocks p conf)
  = [ []; []; [];
      if fst (RAND_bytes p sizeof_random_bytes) =? 1
      then first8 (snd (RAND_bytes p sizeof_random_bytes)) else [];
      []; []; []; []; []; []; [] ].
Proof.
  unfold blocks. cbn [map].
  rewrite (test_9_obs sample_bytes eq_refl sample_bytes_app) by algorithm_cases.
  per_block ltac:(answers; vm_compute; reflexivity).
Qed.

Lemma first8_firstn (buf : list Z) :
  (8 <= List.length buf)%nat -> first8 buf = firstn 8 buf.
Proof.
  intros H. do 8 (destruct buf as [| ? buf]; [cbn in H; lia |]). reflexivity.
Qed.

(** X10.  The bytes of the random buffer that are shown are its first
    eight, in order, and they are shown only on the runs that get past
    test 4, that is, after [RAND_bytes] returned 1: a buffer that
    [RAND_bytes] did not fill is never printed. *)
Theorem sample_bytes_shown :
  sample_bytes (trace (main p conf))
  = (if (4 <? stop_block p)%nat
     then first8 (snd (RAND_bytes p sizeof_random_bytes)) else []) /\
  ((4 <? stop_block p)%nat = true ->
   fst (RAND_bytes p sizeof_random_bytes) = 1) /\
  ((8 <= List.length (snd (RAND_bytes p sizeof_random_bytes)))%nat ->
   first8 (snd (RAND_bytes p sizeof_random_bytes))
   = firstn 8 (snd (RAND_bytes p sizeof_random_bytes))).
Proof.
  split; [| split; [| apply first8_firstn]].
  - rewrite (main_obs sample_bytes eq_refl sample_bytes_app), blocks_sample_bytes.
    assert (Hc : sample_bytes (trace closing) = []) by reflexivity.
    rewrite Hc. cbn [opening sample_bytes app]. unfold stop_block.
    destruct (negb _); [destruct (required_ok p); reflexivity |].
    destruct (negb _); [destruct (required_ok p); reflexivity |].
    destruct (fst (RAND_bytes p sizeof_random_bytes) =? 1); cbn [negb];
      [| destruct (required_ok p); reflexivity].
    destruct (negb _); [destruct (required_ok p); cbn; rewrite ?app_nil_r; reflexivity |].
    destruct (negb _); [destruct (required_ok p); cbn; rewrite ?app_nil_r; reflexivity |].
    destruct (negb _); destruct (required_ok p); cbn; rewrite ?app_nil_r; reflexivity.
  - unfold stop_block.
    destruct (negb _); [discriminate |].
    destruct (negb _); [discriminate |].
    destruct (Z.eqb_spec (fst (RAND_bytes p sizeof_random_bytes)) 1);
      [intros _; assumption | discriminate].
Qed.

(** ** The lookups of test 9 *)

Lemma calls_algorithm_loop (l : list nat) :
  calls (flat_map (algorithm_events p) l)
  = flat_map (fun i => lookups p (nth i algorithms "")) l.
Proof.
  induction l as [| i l IH]; [reflexivity |].
  cbn [flat_map]. rewrite calls_app, IH. f_equal.
  unfold algorithm_events, lookup_calls, availability_line, lookups.
  destruct (is_some (EVP_get_digestbyname p (nth i algorithms "")));
    reflexivity.
Qed.

Lemma flat_map_map {A B C} (f : B -> list C) (g : A -> B) (l : list A) :
  flat_map f (map g l) = flat_map (fun a => f (g a)) l.
Proof. induction l as [| a l IH]; cbn; [| rewrite IH]; reflexivity. Qed.

Lemma lookups_length (l : list string) :
  List.length (flat_map (lookups p) l)
  = (List.length l
     + List.length (filter (fun name => negb (is_some (EVP_get_digestbyname p name))) l))%nat.
Proof.
  induction l as [| name l IH]; [reflexivity |].
  cbn [flat_map filter]. rewrite length_app, IH. unfold lookups.
  destruct (is_some (EVP_get_digestbyname p name)); cbn; lia.
Qed.

(** X11.  Test 9 looks every one of the eight names up as a digest, in
    the order of the list, and looks a name up as a cipher only when the
    digest lookup for that name returned null, right after it; the
    number of lookups is 8 plus the number of names that are no
    digest. *)
Theorem test_9_lookups :
  calls (trace (test_9 p)) = flat_map (lookups p) algorithms /\
  List.length (calls (trace (test_9 p)))
  = (8 + List.length
           (filter (fun name => negb (is_some (EVP_get_digestbyname p name)))
                   algorithms))%nat.
Proof.
  assert (E : calls (trace (test_9 p)) = flat_map (lookups p) algorithms).
  { rewrite test_9_eq. cbn [trace fst].
    rewrite !calls_app, calls_algorithm_loop. cbn [calls app].
    rewrite app_nil_r, <- (flat_map_map (lookups p)). reflexivity. }
  split; [exact E |]. rewrite E, lookups_length. reflexivity.
Qed.

(** ** The size of the report *)

Lemma status_report_from (k : nat) (t : list Event) :
  map status (report_from k t) = statuses (marks t).
Proof.
  revert k. induction t as [| e t IH]; intros k; [reflexivity |].
  cbn [report_from marks].
  destruct (mark_of e) as [[j | s] |]; cbn; rewrite ?IH; reflexivity.
Qed.

Lemma statuses_marks_app (t1 t2 : list Event) :
  statuses (marks (t1 ++ t2)) = statuses (marks t1) ++ statuses (marks t2).
Proof. rewrite marks_app, statuses_app. reflexivity. Qed.

Lemma statuses_results {A} (f : A -> Status) (l : list A) :
  statuses (map (fun a => MResult (f a)) l) = map f l.
Proof. induction l as [| a l IH]; cbn; [| rewrite IH]; reflexivity. Qed.

Lemma blocks_statuses :
  map (fun b => statuses (marks (trace b))) (blocks p conf)
  = block_statuses p conf.
Proof.
  unfold blocks, block_statuses. cbn [map].
  rewrite marks_test_9. cbn [statuses]. rewrite statuses_app, statuses_results.
  per_block ltac:(answers; vm_compute; reflexivity).
Qed.

(** The statuses of the report, block by block. *)
Lemma report_status_list :
  map status (report (trace (main p conf)))
  = List.concat (firstn (stop_block p) (block_statuses p conf)).
Proof.
  unfold report. rewrite status_report_from.
  rewrite (main_obs (fun t => statuses (marks t)) eq_refl statuses_marks_app).
  rewrite blocks_statuses.
  assert (Hc : statuses (marks (trace closing)) = []) by (vm_compute; reflexivity).
  assert (Ho : statuses (marks opening) = []) by (vm_compute; reflexivity).
  cbv beta. rewrite Hc, Ho.
  destruct (required_ok p); cbn [app]; apply app_nil_r.
Qed.

Lemma count_status_map (s : Status) (r : list CheckResult) :
  count_status s r
  = List.length (filter (fun x => Status_eqb x s) (map status r)).
Proof.
  unfold count_status. induction r as [| c r IH]; [reflexivity |].
  cbn [filter map]. destruct (Status_eqb (status c) s); cbn [List.length];
    rewrite IH; reflexivity.
Qed.

Lemma count_concat {A} (f : A -> bool) (ls : list (list A)) :
  List.length (filter f (List.concat ls))
  = list_sum (map (fun l => List.length (filter f l)) ls).
Proof.
  induction ls as [| l ls IH]; [reflexivity |].
  cbn [List.concat map list_sum]. rewrite filter_app, length_app, IH.
  reflexivity.
Qed.

Lemma algorithm_status_counts (l : list string) :
  let A := map (fun name => if available p name then Pass else Skipped) l in
  List.length (filter (fun x => Status_eqb x Pass) A)
  = List.length (filter (available p) l) /\
  (List.length (filter (fun x => Status_eqb x Skipped) A)
   + List.length (filter (available p) l) = List.length l)%nat /\
  List.length (filter (fun x => Status_eqb x Fail) A) = 0%nat /\
  List.length A = List.length l.
Proof.
  induction l as [| name l (I1 & I2 & I3 & I4)]; cbn zeta in *;
    [repeat split |].
  cbn [map filter]. destruct (available p name); cbn [Status_eqb List.length];
    repeat split; lia.
Qed.

Ltac aborted_leaf :=
  cbn; split; [tauto |]; split; intros E; try discriminate E;
  repeat split; lia.

(** X12.  A run that exits with 0 reports exactly 31 results, none of
    them a [Fail]; the number of [Pass] results is 21 plus the number
    of available algorithm names plus one for a configuration path that
    is set and one for FIPS mode, and the other results are [Skipped].
    A run that exits with 1 reports at most 18 results, exactly one of
    them a [Fail] and none [Skipped]. *)
Theorem report_statistics :
  (exit_code (main p conf) = 0 \/ exit_code (main p conf) = 1) /\
  (exit_code (main p conf) = 0 ->
   List.length (report (trace (main p conf))) = 31%nat /\
   count_status Fail (report (trace (main p conf))) = 0%nat /\
   count_status Pass (report (trace (main p conf)))
   = (21 + List.length (available_names p)
      + bool_to_nat (is_some conf)
      + bool_to_nat (Z.eqb (FIPS_mode p) 1))%nat /\
   (count_status Skipped (report (trace (main p conf)))
    + count_status Pass (report (trace (main p conf))) = 31)%nat) /\
  (exit_code (main p conf) = 1 ->
   (List.length (report (trace (main p conf))) <= 18)%nat /\
   count_status Fail (report (trace (main p conf))) = 1%nat /\
   count_status Skipped (report (trace (main p conf))) = 0%nat).
Proof.
  rewrite !count_status_map, <- (length_map status), report_status_list,
    exit_code_required.
  rewrite !count_concat, length_concat.
  destruct (algorithm_status_counts algorithms) as (A1 & A2 & A3 & A4).
  cbn zeta in A1, A2, A3, A4. fold (available_names p) in A1, A2.
  change (List.length algorithms) with 8%nat in A2, A4.
  unfold stop_block, required_ok, bio_ok, block_statuses.
  remember (map (fun name => if available p name then Pass else Skipped)
                algorithms) as A eqn:EA.
  clear EA.
  destruct (SSL_library_init p =? 1); [| aborted_leaf].
  destruct (SSL_load_error_strings p =? 1); [| aborted_leaf].
  destruct (OpenSSL_add_all_algorithms p =? 1); [| aborted_leaf].
  destruct (is_some (EVP_sha256 p)); [| aborted_leaf].
  destruct (fst (RAND_bytes p sizeof_random_bytes) =? 1); [| aborted_leaf].
  destruct (BIO_new p) as [bio |]; [| aborted_leaf].
  destruct (BIO_write p bio "Hello, OpenSSL!" (strlen "Hello, OpenSSL!") >? 0);
    [| aborted_leaf].
  destruct (is_some (SSL_CTX_new p)); [| aborted_leaf].
  destruct (is_some (EVP_MD_CTX_new p 1)); [| aborted_leaf].
  cbn [andb negb firstn map list_sum].
  rewrite !filter_app, !length_app, A1, A3, A4.
  generalize dependent (List.length (available_names p)). intros n _ A2.
  generalize dependent
    (List.length (filter (fun x => Status_eqb x Skipped) A)). intros m A2.
  split; [left; reflexivity |]. split; [| discriminate].
  intros _.
  destruct (is_some conf), (FIPS_mode p =? 1); cbn; repeat split; lia.
Qed.

End Blocks.

Lemma initialised_before_use_witness :
  In Call_EVP_sha256 (calls (trace (main Samples.functional None))) /\
  before_init Call_EVP_sha256 = false /\
  SSL_library_init Samples.functional = 1.
Proof.
  assert (H1 : In Call_EVP_sha256 (calls (trace (main Samples.functional None)))).
  { vm_compute. tauto. }
  assert (H2 : before_init Call_EVP_sha256 = false) by reflexivity.
  destruct (initialised_before_use Samples.functional None Call_EVP_sha256 H1 H2)
    as (E & _).
  split; [exact H1 |]. split; [exact H2 | exact E].
Defined.

(** The installed library of [Samples.functional]: four of the eight
    names are available, no configuration path, no FIPS mode. *)
Lemma report_statistics_witness :
  exit_code (main Samples.functional None) = 0 /\
  List.length (report (trace (main Samples.functional None))) = 31%nat /\
  count_status Pass (report (trace (main Samples.functional None))) = 25%nat /\
  count_status Skipped (report (trace (main Samples.functional None))) = 6%nat.
Proof.
  assert (H : exit_code (main Samples.functional None) = 0) by reflexivity.
  destruct (report_statistics Samples.functional None) as (_ & Hfull & _).
  destruct (Hfull H) as (Hlen & _ & Hpass & Hsum).
  split; [exact H |]. split; [exact Hlen |].
  assert (Ep : count_status Pass (report (trace (main Samples.functional None)))
               = 25%nat) by (rewrite Hpass; reflexivity).
  split; [exact Ep |]. rewrite Ep in Hsum. lia.
Defined.

(** [BIO_write] fails: the run ends in block 6 and the BIO stays held. *)
Lemma held_at_exit_witness :
  stop_block Samples.bio_write_fails = 6%nat /\
  live (trace (main Samples.bio_write_fails None)) = [RBio 31%positive] /\
  live (trace (main Samples.functional None)) = [].
Proof.
  split; [reflexivity |]. split.
  - rewrite (held_at_exit Samples.bio_write_fails None). reflexivity.
  - rewrite (held_at_exit Samples.functional None). reflexivity.
Defined.


End RunsFacts.

(* ===================================================================== *)
(** * Part VII. The run through all eleven blocks                         *)
(* ===================================================================== *)

Section FullRun.
Import Int32 TestOpenssl Runs.
Local Open Scope string_scope.
Local Open Scope list_scope.
Local Open Scope Z_scope.
Local Open Scope probe_scope.

Variable p : Provider.
Variable conf : option string.

Lemma test_9_calls : calls (trace (test_9 p)) = flat_map (lookups p) algorithms.
Proof.
  rewrite test_9_eq. cbn [trace fst].
  rewrite !calls_app, calls_algorithm_loop. cbn [calls app].
  rewrite app_nil_r, <- (flat_map_map (lookups p)). reflexivity.
Qed.

Lemma filed_results {A} (cur : nat) (f : A -> Status) (l : list A)
    (rest : list Mark) :
  filed cur (map (fun a => MResult (f a)) l ++ rest)
  = map (fun a => (cur, f a)) l ++ filed cur rest.
Proof.
  induction l as [| a l IH]; [reflexivity |].
  cbn [map app filed]. rewrite IH. reflexivity.
Qed.

(** A block with the answers the context fixes. *)
Ltac given_answers :=
  cbv beta iota zeta delta
    [test_1 test_2 test_3 test_4 test_5 test_6 test_7 test_8 test_10 test_11
     bind invoke printf return_ ret for_each seq];
  repeat (progress
            (repeat match goal with
                    | H : _ = true |- _ => rewrite H
                    | H : _ = Some _ |- _ => rewrite H
                    | H : _ = (_, _) |- _ => rewrite H
                    end;
             cbv beta iota));
  repeat match goal with
    | |- context [if ?c then _ else _] =>
        lazymatch c with (_ =? 1) => destruct c end
    | |- context [match ?x with Some _ => _ | None => _ end] =>
        lazymatch x with
        | EVP_MD_CTX_new _ _ => destruct x
        | _ => is_var x; destruct x
        end
    end;
  vm_compute; reflexivity.

Ltac every_block :=
  repeat (apply (f_equal2 (@cons _)); [solve [given_answers] |]);
  try reflexivity.

(** The marks and the calls of each block when every required answer is
    a success. *)
Lemma full_run_blocks :
  required_ok p = true ->
  exists bio ssl_ctx md_ctx,
    BIO_new p = Some bio /\
    SSL_CTX_new p = Some ssl_ctx /\
    EVP_MD_CTX_new p 1 = Some md_ctx /\
    map (fun b => marks (trace b)) (blocks p conf)
    = [ [MSection 1; MResult Pass];
        [MSection 2; MResult Pass; MResult Pass; MResult Pass];
        [MSection 3; MResult Pass; MResult Pass; MResult Pass];
        [MSection 4; MResult Pass; MResult Pass; MResult Pass];
        [MSection 5; MResult Pass];
        [MSection 6; MResult Pass; MResult Pass; MResult Pass];
        [MSection 7; MResult Pass; MResult Pass; MResult Pass];
        [MSection 8; MResult Pass; MResult Pass];
        MSection 9
        :: map (fun name => MResult (if available p name then Pass else Skipped))
               algorithms
        ++ [MResult Pass];
        [MSection 10;
         MResult (if is_some conf then Pass else Skipped);
         MResult (if FIPS_mode p =? 1 then Pass else Skipped)];
        [MSection 11; MResult Pass] ] /\
    map (fun b => calls (trace b)) (blocks p conf)
    = [ [Call_OpenSSL_version OPENSSL_VERSION;
         Call_OpenSSL_version OPENSSL_VERSION_STRING;
         Call_OpenSSL_version OPENSSL_VERSION_BUILD_DATE;
         Call_OpenSSL_version OPENSSL_VERSION_COMPILER;
         Call_OpenSSL_version OPENSSL_VERSION_PLATFORM;
         Call_OpenSSL_version OPENSSL_VERSION_DIR];
        [Call_SSL_library_init; Call_SSL_load_error_strings;
         Call_OpenSSL_add_all_algorithms];
        [Call_EVP_sha256; Call_EVP_MD_size; Call_EVP_MD_block_size];
        [Call_RAND_bytes sizeof_random_bytes];
        [Call_ERR_load_crypto_strings; Call_ERR_load_SSL_strings;
         Call_EVP_MD_CTX_new (EVP_MD_CTX_new p 0)]
        ++ match EVP_MD_CTX_new p 0 with
           | Some ctx => [Call_EVP_MD_CTX_free ctx]
           | None => []
           end;
        [Call_BIO_s_mem; Call_BIO_new (Some bio);
         Call_BIO_write bio (strlen "Hello, OpenSSL!"); Call_BIO_free bio];
        [Call_TLS_client_method; Call_SSL_CTX_new (Some ssl_ctx);
         Call_SSL_CTX_get_ssl_method ssl_ctx; Call_SSL_CTX_free ssl_ctx];
        [Call_EVP_MD_CTX_new (Some md_ctx); Call_EVP_MD_CTX_free md_ctx];
        flat_map (lookups p) algorithms;
        [Call_FIPS_mode];
        [Call_EVP_cleanup; Call_ERR_free_strings] ].
Proof.
  unfold required_ok, bio_ok. intros H.
  repeat match type of H with
         | (_ && _)%bool = true =>
             let H' := fresh "A" in apply andb_prop in H as [H H']
         end.
  destruct (EVP_sha256 p) as [md |] eqn:Esha; [| discriminate].
  destruct (RAND_bytes p sizeof_random_bytes) as [st buf] eqn:Erand.
  cbn [fst] in *.
  destruct (BIO_new p) as [bio |] eqn:Ebio; [| discriminate].
  destruct (SSL_CTX_new p) as [ssl_ctx |] eqn:Essl; [| discriminate].
  destruct (EVP_MD_CTX_new p 1) as [md_ctx |] eqn:Emd; [| discriminate].
  exists bio, ssl_ctx, md_ctx.
  split; [reflexivity |]. split; [reflexivity |]. split; [reflexivity |].
  unfold blocks. cbn [map]. rewrite marks_test_9, test_9_calls.
  split; every_block.
Qed.

(** The events of a run that no check stops: the opening lines, the
    eleven blocks in full, the closing lines. *)
Lemma full_run_trace :
  required_ok p = true ->
  trace (main p conf)
  = opening ++ List.concat (map trace (blocks p conf)) ++ trace closing.
Proof.
  intros Hreq. rewrite main_trace, Hreq.
  rewrite (proj2 (proj2 (stop_block_cases p)) Hreq). reflexivity.
Qed.

(** C2.  If no result of the report is a [Fail] ([Skipped] results
    allowed), every required answer of the provider was a success and the
    process exits with status 0 with overall status [Pass].  The run
    evaluates the whole list of checks: its events are the opening lines,
    the events of each of the eleven blocks in order and the closing
    lines; its report has the 31 results of [full_report], block by
    block; and its library calls are those of [full_calls], from the six
    version queries to [EVP_cleanup] and [ERR_free_strings]. *)
Theorem all_pass :
  (forall r, In r (report (trace (main p conf))) -> status r <> Fail) ->
  required_ok p = true /\
  exit_code (main p conf) = 0 /\
  sections (marks (trace (main p conf))) = List.seq 1 11 /\
  overall (report (trace (main p conf))) = Pass /\
  trace (main p conf)
  = opening ++ List.concat (map trace (blocks p conf)) ++ trace closing /\
  map (fun r => (section r, status r)) (report (trace (main p conf)))
  = full_report p conf /\
  List.length (report (trace (main p conf))) = 31%nat /\
  exists bio ssl_ctx md_ctx,
    BIO_new p = Some bio /\
    SSL_CTX_new p = Some ssl_ctx /\
    EVP_MD_CTX_new p 1 = Some md_ctx /\
    calls (trace (main p conf)) = full_calls p bio ssl_ctx md_ctx.
Proof.
  intros Hno.
  destruct (main_ends p conf) as [(Hs & Hf & Hsec & _) | (Hs & Hf & _)].
  2: { exfalso.
       apply report_stops_on_fail in Hf as (t0 & e & _ & _ & _ & Hrep).
       apply (Hno {| section := cur_section 0 (marks t0);
                     category := category_of_section (cur_section 0 (marks t0));
                     status := Fail; detail := e |}); [| reflexivity].
       rewrite Hrep. apply in_or_app. right. left. reflexivity. }
  assert (Hreq : required_ok p = true).
  { pose proof (exit_code_required p conf) as Hx. unfold exit_code in Hx.
    rewrite Hs in Hx. destruct (required_ok p); [reflexivity | discriminate Hx]. }
  pose proof (full_run_trace Hreq) as Htrace.
  destruct (full_run_blocks Hreq)
    as (bio & ssl_ctx & md_ctx & Ebio & Essl & Emd & Hmarks & Hcalls).
  assert (Hfiled : map (fun r => (section r, status r))
                       (report (trace (main p conf)))
                   = full_report p conf).
  { unfold report. rewrite filed_report_from, Htrace.
    rewrite !marks_app, (obs_concat marks _ eq_refl marks_app), map_map, Hmarks.
    assert (Ho : marks opening = []) by (vm_compute; reflexivity).
    assert (Hc : marks (trace closing) = []) by (vm_compute; reflexivity).
    rewrite Ho, Hc. cbn [List.concat app].
    rewrite <- !app_assoc. cbn [filed].
    rewrite filed_results. cbn [app filed].
    unfold full_report. cbn [app]. reflexivity. }
  split; [exact Hreq |].
  split; [unfold exit_code; rewrite Hs; reflexivity |].
  split; [exact Hsec |].
  split; [apply overall_pass_iff; exact Hno |].
  split; [exact Htrace |].
  split; [exact Hfiled |].
  split.
  { rewrite <- (length_map (fun r => (section r, status r))), Hfiled.
    reflexivity. }
  exists bio, ssl_ctx, md_ctx.
  split; [exact Ebio |]. split; [exact Essl |]. split; [exact Emd |].
  rewrite Htrace, !calls_app, (obs_concat calls _ eq_refl calls_app),
    map_map, Hcalls.
  assert (Hc : calls (trace closing) = []) by reflexivity.
  rewrite Hc. cbn [opening calls List.concat].
  unfold full_calls.
  rewrite !app_nil_r, <- !app_assoc. reflexivity.
Qed.

End FullRun.

(** An installed library that knows four of the eight names: 31 results,
    four of them [Skipped] in block 9 and two in block 10, no [Fail]; 44
    library calls, the last two the clean-up calls. *)
Lemma all_pass_witness :
  (forall r, In r (TestOpenssl.report
                     (TestOpenssl.trace (TestOpenssl.main Samples.functional None))) ->
             TestOpenssl.status r <> TestOpenssl.Fail) /\
  TestOpenssl.exit_code (TestOpenssl.main Samples.functional None) = 0 /\
  TestOpenssl.sections
    (TestOpenssl.marks (TestOpenssl.trace (TestOpenssl.main Samples.functional None)))
    = [1; 2; 3; 4; 5; 6; 7; 8; 9; 10; 11]%nat /\
  TestOpenssl.statuses
    (TestOpenssl.marks (TestOpenssl.trace (TestOpenssl.test_9 Samples.functional)))
    = [TestOpenssl.Pass; TestOpenssl.Pass; TestOpenssl.Pass; TestOpenssl.Pass;
       TestOpenssl.Skipped; TestOpenssl.Skipped; TestOpenssl.Skipped;
       TestOpenssl.Skipped; TestOpenssl.Pass] /\
  List.length
    (TestOpenssl.report
       (TestOpenssl.trace (TestOpenssl.main Samples.functional None))) = 31%nat /\
  List.length
    (TestOpenssl.calls
       (TestOpenssl.trace (TestOpenssl.main Samples.functional None))) = 44%nat.
Proof.
  assert (H : forall r,
             In r (TestOpenssl.report
                     (TestOpenssl.trace (TestOpenssl.main Samples.functional None))) ->
             TestOpenssl.status r <> TestOpenssl.Fail).
  { apply overall_pass_iff. vm_compute. reflexivity. }
  destruct (all_pass Samples.functional None H)
    as (_ & Hexit & Hsec & _ & _ & _ & Hlen & _).
  split; [exact H |]. split; [exact Hexit |]. split; [exact Hsec |].
  split; [vm_compute; reflexivity |]. split; [exact Hlen |].
  vm_compute. reflexivity.
Defined.
